(** * ethoscope-imager: a shallow embedding of [imager.py]

    The development models the three mixins of [imager.py]
    ([ImageExtractor], [Annotator], [VideoMaker]) and the orchestrator
    [EthoscopeImager] as functions over an explicit world (the file system,
    the archive and a log of the effects performed), and settles the
    properties the specification states about them.

    Part I holds the definitions, Part II the facts about the stated
    properties, Part III further facts about the same code. *)

From Stdlib Require Import ZArith Lia Ascii String List Bool.
From stdpp Require Import base gmap strings list.

Local Open Scope Z_scope.

(** * Part I: definitions *)

(** ** Python strings and the string primitives the program uses *)

Module PyString.

(** [sep.join(l)] *)
Fixpoint join (sep : string) (l : list string) : string :=
  match l with
  | [] => ""
  | [x] => x
  | x :: rest => x +:+ sep +:+ join sep rest
  end.

(** [s.startswith(p)] *)
Fixpoint startswith (p s : string) : bool :=
  match p, s with
  | EmptyString, _ => true
  | String a p', String b s' => if Ascii.eqb a b then startswith p' s' else false
  | String _ _, EmptyString => false
  end.

(** [s.endswith(c)] for a one-character [c] *)
Fixpoint endswith_char (c : ascii) (s : string) : bool :=
  match s with
  | EmptyString => false
  | String a EmptyString => Ascii.eqb a c
  | String _ s' => endswith_char c s'
  end.

(** [s.endswith(p)] *)
Fixpoint endswith (p s : string) : bool :=
  match s with
  | EmptyString => String.eqb p ""
  | String _ s' => String.eqb p s || endswith p s'
  end.

(** [c in s] for a one-character [c] *)
Fixpoint contains_char (c : ascii) (s : string) : bool :=
  match s with
  | EmptyString => false
  | String a s' => Ascii.eqb a c || contains_char c s'
  end.

(** [s.replace(old, new)] for a non-empty [old]: the occurrences are found
    from the left and do not overlap.  [skip] counts the characters of an
    occurrence that are still to be dropped. *)
Fixpoint replace_from (skip : nat) (old new s : string) : string :=
  match s with
  | EmptyString => EmptyString
  | String c s' =>
      match skip with
      | S k => replace_from k old new s'
      | O =>
          if startswith old s
          then new +:+ replace_from (String.length old - 1) old new s'
          else String c (replace_from O old new s')
      end
  end.

Definition replace (old new s : string) : string := replace_from O old new s.

(** [s.split(sep)] for a one-character separator: never an empty list. *)
Fixpoint split (sep : ascii) (s : string) : list string :=
  match s with
  | EmptyString => [EmptyString]
  | String c s' =>
      if Ascii.eqb c sep then EmptyString :: split sep s'
      else match split sep s' with
           | [] => [String c EmptyString]
           | x :: xs => String c x :: xs
           end
  end.

(** Comparison of two strings by code point, as [<] on [str] and a
    lexicographic sort of file names do. *)
Fixpoint compare (s t : string) : comparison :=
  match s, t with
  | EmptyString, EmptyString => Eq
  | EmptyString, String _ _ => Lt
  | String _ _, EmptyString => Gt
  | String a s', String b t' =>
      match (Z.of_nat (nat_of_ascii a) ?= Z.of_nat (nat_of_ascii b)) with
      | Eq => compare s' t'
      | o => o
      end
  end.

End PyString.

(** ** Integers as text: [str(n)], ["%i" % n] and ["%05d" % n] *)

Module PyInt.

Definition digit_char (d : Z) : ascii := ascii_of_nat (48 + Z.to_nat d).

(** The decimal digits of a non-negative [n], most significant first, put
    in front of [acc]; [fuel] bounds the number of further digits. *)
Fixpoint digits_aux (fuel : nat) (n : Z) (acc : string) : string :=
  let acc' := String (digit_char (n mod 10)) acc in
  match fuel with
  | O => acc'
  | S f => if n / 10 =? 0 then acc' else digits_aux f (n / 10) acc'
  end.

(** A number has no more decimal digits than binary ones, so the fuel
    never runs out ([PyIntFacts.str_nonneg_small], [str_nonneg_step]). *)
Definition str_nonneg (n : Z) : string :=
  digits_aux (Z.to_nat (Z.log2 n)) n "".

(** [str(n)], which is also ["%i" % n] and ["%d" % n] *)
Definition str (n : Z) : string :=
  if n <? 0 then "-" +:+ str_nonneg (- n) else str_nonneg n.

Fixpoint zeros (k : nat) : string :=
  match k with
  | O => ""
  | S k' => String "0" (zeros k')
  end.

Definition zfill (width : nat) (s : string) : string :=
  zeros (width - String.length s) +:+ s.

(** ["%05d" % n]: the sign counts in the width of five. *)
Definition format_05d (n : Z) : string :=
  if n <? 0 then "-" +:+ zfill 4 (str_nonneg (- n)) else zfill 5 (str_nonneg n).

End PyInt.

(** ** [os.path] on POSIX *)

Module PosixPath.

(** [os.path.join(a, b)] *)
Definition join (a b : string) : string :=
  if PyString.startswith "/" b then b
  else if String.eqb a "" || PyString.endswith_char "/" a then a +:+ b
  else a +:+ "/" +:+ b.

(** [os.path.join(a, b, c)]: the components are folded from the left. *)
Definition join3 (a b c : string) : string := join (join a b) c.

(** [p[:i], p[i:]] for [i = p.rfind("/") + 1], when [p] has a slash *)
Fixpoint rsplit_slash (p : string) : option (string * string) :=
  match p with
  | EmptyString => None
  | String c p' =>
      match rsplit_slash p' with
      | Some (h, t) => Some (String c h, t)
      | None => if Ascii.eqb c "/" then Some ("/"%string, p') else None
      end
  end.

(** [os.path.basename(p)] *)
Definition basename (p : string) : string :=
  match rsplit_slash p with
  | Some (_, t) => t
  | None => p
  end.

Fixpoint all_slashes (s : string) : bool :=
  match s with
  | EmptyString => true
  | String c s' => Ascii.eqb c "/" && all_slashes s'
  end.

(** [s.rstrip("/")] *)
Fixpoint rstrip_slash (s : string) : string :=
  match s with
  | EmptyString => EmptyString
  | String c s' =>
      let r := rstrip_slash s' in
      if Ascii.eqb c "/" && String.eqb r "" then EmptyString else String c r
  end.

(** [os.path.dirname(p)] *)
Definition dirname (p : string) : string :=
  let head := match rsplit_slash p with Some (h, _) => h | None => EmptyString end in
  if negb (String.eqb head "") && negb (all_slashes head)
  then rstrip_slash head else head.

End PosixPath.

(** ** The world: files, the archive, and the effects performed *)

Definition bytes := list Byte.byte.

(** A value stored in a column of the archive. *)
Inductive sqlval :=
| SqlNull
| SqlInt (z : Z)
| SqlText (s : string)
| SqlBlob (b : bytes).

(** A row of the table IMG_SNAPSHOTS. *)
Record frame_record := FrameRecord {
  fr_id : Z;
  fr_t : Z;
  fr_img : bytes
}.

(** The archive [self.path] points to. *)
Record archive := Archive {
  METADATA : list (sqlval * sqlval);
  IMG_SNAPSHOTS : list frame_record
}.

Inductive event :=
| EvWrite (path : string) (data : bytes)
| EvRemove (path : string)
| EvSystem (command : string)
| EvExecute (statement : string).

Record world := World {
  files : gmap string bytes;
  db : archive;
  log : list event
}.

Inductive exn :=
| NameError (name : string)
| Exception (msg : string)
| FileNotFoundError (path : string)
| IndexError
| ValueError (arg : string)
| TypeError
| OverflowError
| OSError
| OperationalError (statement : string)
| ProgrammingError (msg : string).

Inductive outcome (A : Type) :=
| Ok (a : A)
| Raise (e : exn).
Arguments Ok {A} a.
Arguments Raise {A} e.

(** Effectful code threads the world and may raise. *)
Definition M (A : Type) : Type := world -> outcome A * world.

Definition ret {A} (a : A) : M A := fun w => (Ok a, w).

Definition raise {A} (e : exn) : M A := fun w => (Raise e, w).

Definition bind {A B} (m : M A) (k : A -> M B) : M B :=
  fun w =>
    match m w with
    | (Ok a, w') => k a w'
    | (Raise e, w') => (Raise e, w')
    end.

Definition lift {A} (o : outcome A) : M A := fun w => (o, w).

Definition obind {A B} (o : outcome A) (k : A -> outcome B) : outcome B :=
  match o with
  | Ok a => k a
  | Raise e => Raise e
  end.

Declare Scope py_scope.
Delimit Scope py_scope with py.
Notation "x <- m ;; k" := (bind m (fun x => k))
  (at level 100, m at next level, right associativity) : py_scope.
Notation "m ;;; k" := (bind m (fun _ => k))
  (at level 100, right associativity) : py_scope.
Notation "x <~ o ;; k" := (obind o (fun x => k))
  (at level 100, o at next level, right associativity) : py_scope.
Local Open Scope py_scope.

(** [for x in l: ys.append(f(x))] *)
Fixpoint mapM {A B} (f : A -> M B) (l : list A) : M (list B) :=
  match l with
  | [] => ret []
  | x :: rest => y <- f x ;; ys <- mapM f rest ;; ret (y :: ys)
  end.

Fixpoint omapM {A B} (f : A -> outcome B) (l : list A) : outcome (list B) :=
  match l with
  | [] => Ok []
  | x :: rest => y <~ f x ;; ys <~ omapM f rest ;; Ok (y :: ys)
  end.

Definition log_event (e : event) (w : world) : world :=
  World (files w) (db w) (log w ++ [e]).

(** [os.path.exists(p)] *)
Definition path_exists (p : string) (w : world) : bool :=
  bool_decide (is_Some (files w !! p)).

Definition os_path_exists (p : string) : M bool :=
  fun w => (Ok (path_exists p w), w).

(** [shutil.copyfileobj(io.BytesIO(blob), open(p, "wb"))] *)
Definition write_file (p : string) (blob : bytes) : M unit :=
  fun w => (Ok tt, World (<[p := blob]> (files w)) (db w) (log w ++ [EvWrite p blob])).

(** [os.remove(p)] *)
Definition os_remove (p : string) : M unit :=
  fun w =>
    if path_exists p w
    then (Ok tt, World (delete p (files w)) (db w) (log w ++ [EvRemove p]))
    else (Raise (FileNotFoundError p), w).

(** ** What the platform provides

    The labelling tool and the encoder run through [os.system]; SQLite
    evaluates the criteria; [float], [int], [datetime] and the pattern
    matching of [glob] are Python's. *)

Class Platform := {
  (** Python's float *)
  pyfloat : Type;
  (** [float(value)] on a value read from the archive *)
  py_float : sqlval -> outcome pyfloat;
  (** [int(s)] on a string *)
  py_int : string -> outcome Z;
  (** [os.system(command)]: the exit status and the files afterwards *)
  run_command : string -> gmap string bytes -> Z * gmap string bytes;
  (** SQLite on [WHERE criteria]: the rows selected, or the exception
      [execute] raises ([OperationalError] for a text it cannot parse,
      [ProgrammingError] for one with unbound parameters) *)
  sqlite_where : string -> outcome (frame_record -> bool);
  (** [glob.glob(pattern)] for a pattern whose directory part holds
      pattern characters *)
  glob_magic : string -> gmap string bytes -> list string
}.

Section Imager.
Context `{P : Platform}.

(** [self.t0] is the integer 0 or a float. *)
Inductive pynum :=
| NumInt (z : Z)
| NumFloat (x : pyfloat).

Class Clock := {
  (** [datetime.datetime.fromtimestamp(time / 1000 + t0)
      .strftime("%Y-%m-%d %H:%M:%S")]: the label, or the exception of the
      division or of [fromtimestamp] for a time out of range *)
  timestamp_label : Z -> pynum -> outcome string
}.
Context `{C : Clock}.

(** [os.system(command)] *)
Definition os_system (command : string) : M Z :=
  fun w =>
    let '(status, fs) := run_command command (files w) in
    (Ok status, World fs (db w) (log w ++ [EvSystem command])).

(** [glob.has_magic(s)]: one of the pattern characters is in [s]. *)
Definition has_magic (s : string) : bool :=
  PyString.contains_char "*" s || PyString.contains_char "?" s
  || PyString.contains_char "[" s.

(** [glob.glob(os.path.join(d, "*.jpg"))].  When [d] holds no pattern
    character it is taken as it is: the result is the entries of [d] whose
    name ends in [.jpg] and does not start with a dot.  Otherwise [d] is a
    pattern itself and the directories it matches are searched. *)
Definition jpg_name (name : string) : bool :=
  PyString.endswith ".jpg" name
  && negb (PyString.startswith "." name)
  && negb (PyString.contains_char "/" name).

Definition jpg_in (d : string) (p : string) : bool :=
  bool_decide (p = PosixPath.join d (PosixPath.basename p))
  && jpg_name (PosixPath.basename p).

Definition glob_jpg (d : string) : M (list string) :=
  fun w =>
    if has_magic d
    then (Ok (glob_magic (PosixPath.join d "*.jpg") (files w)), w)
    else (Ok (filter (fun p => jpg_in d p = true) (map fst (map_to_list (files w)))), w).

(** The instance attributes [__init__] sets *)
Record imager := Imager {
  path : string;
  filename : string;
  experiment_folder : string;
  img_snapshots : string;
  t0 : pynum
}.

(** *** class ImageExtractor *)

Definition list_snapshots (self : imager) : M (list string) :=
  glob_jpg (img_snapshots self).




Definition frame_name (id t : Z) : string :=
  PyInt.format_05d id +:+ "_" +:+ PyInt.str t +:+ ".jpg".

Definition frame_name_raw (id t : Z) : string :=
  PyInt.format_05d id +:+ "_" +:+ PyInt.str t +:+ "_raw.jpg".

(** The two paths [save_frame] derives from [(id, t)] *)
Definition file_name_raw (self : imager) (id t : Z) : string :=
  PosixPath.join3 (experiment_folder self) "IMG_SNAPSHOTS" (frame_name_raw id t).

Definition file_name (self : imager) (id t : Z) : string :=
  PosixPath.join3 (experiment_folder self) "IMG_SNAPSHOTS" (frame_name id t).

Definition save_frame (self : imager) (id t : Z) (blob : bytes) : M string :=
  e <- os_path_exists (file_name self id t) ;;
  e_raw <- os_path_exists (file_name_raw self id t) ;;
  if e || e_raw then ret (file_name_raw self id t)
  else write_file (file_name_raw self id t) blob ;;; ret (file_name_raw self id t).

(** The values a caller can pass as a filter: [None], a scalar, or a list
    of scalars. *)
Inductive atom :=
| ANone
| ABool (b : bool)
| AInt (z : Z)
| AStr (s : string).

Inductive pyval :=
| PyAtom (a : atom)
| PyList (l : list atom).

Definition is_None (v : pyval) : bool :=
  match v with
  | PyAtom ANone => true
  | _ => false
  end.

(** [str(e)] *)
Definition str_atom (a : atom) : string :=
  match a with
  | ANone => "None"
  | ABool true => "True"
  | ABool false => "False"
  | AInt z => PyInt.str z
  | AStr s => s
  end.

(** The classes a name of the module can stand for. *)
Inductive pyclass :=
| ClsList
| ClsInt
| ClsStr
| ClsUser (name : string).

(** The names [imager.py] binds at module level that are classes
    ([from typing import Union, List] and the four class statements),
    then the built-in types.  No statement of the module binds [Integer],
    and it is no built-in. *)
Definition module_classes : list (string * pyclass) :=
  [ ("List", ClsList);
    ("ImageExtractor", ClsUser "ImageExtractor");
    ("Annotator", ClsUser "Annotator");
    ("VideoMaker", ClsUser "VideoMaker");
    ("EthoscopeImager", ClsUser "EthoscopeImager") ].

Definition builtin_classes : list (string * pyclass) :=
  [ ("int", ClsInt); ("str", ClsStr); ("list", ClsList) ].

Fixpoint assoc (name : string) (l : list (string * pyclass)) : option pyclass :=
  match l with
  | [] => None
  | (n, c) :: rest => if String.eqb n name then Some c else assoc name rest
  end.

(** Evaluating a name: module globals first, built-ins next, [NameError]
    otherwise. *)
Definition lookup_name (name : string) : outcome pyclass :=
  match assoc name module_classes with
  | Some c => Ok c
  | None =>
      match assoc name builtin_classes with
      | Some c => Ok c
      | None => Raise (NameError name)
      end
  end.

Definition isinstance (v : pyval) (c : pyclass) : bool :=
  match v, c with
  | PyList _, ClsList => true
  | PyAtom (AInt _), ClsInt => true
  | PyAtom (ABool _), ClsInt => true
  | PyAtom (AStr _), ClsStr => true
  | _, _ => false
  end.

Fixpoint chars (s : string) : list atom :=
  match s with
  | EmptyString => []
  | String c s' => AStr (String c EmptyString) :: chars s'
  end.

(** [for e in value] *)
Definition py_iter (v : pyval) : outcome (list atom) :=
  match v with
  | PyList l => Ok l
  | PyAtom (AStr s) => Ok (chars s)
  | PyAtom _ => Raise TypeError
  end.

(** [repr(e)]; the escapes inside a quoted string are not modelled. *)
Definition repr_atom (a : atom) : string :=
  match a with
  | AStr s => "'" +:+ s +:+ "'"
  | _ => str_atom a
  end.

(** [format(value)] inside an f-string *)
Definition str_val (v : pyval) : string :=
  match v with
  | PyAtom a => str_atom a
  | PyList l => "[" +:+ PyString.join ", " (map repr_atom l) +:+ "]"
  end.

Definition make_criteria (column : string) (value : pyval) : outcome string :=
  List_ <~ lookup_name "List" ;;
  if isinstance value List_ then
    elems <~ py_iter value ;;
    let value := map str_atom elems in
    Ok (column +:+ " in (" +:+ PyString.join "," value +:+ ")")
  else
    Integer <~ lookup_name "Integer" ;;
    if isinstance value Integer then
      Ok (column +:+ " = " +:+ str_val value)
    else
      Raise (Exception "Please provide either a list of integers or a single integer as value").

(** [cursor.execute("SELECT id, t, img FROM IMG_SNAPSHOTS WHERE ...")] *)
Definition execute_select (criteria : string) : M (list frame_record) :=
  fun w =>
    let statement := "SELECT id, t, img FROM IMG_SNAPSHOTS WHERE " +:+ criteria in
    let w' := log_event (EvExecute statement) w in
    match sqlite_where criteria with
    | Ok selected => (Ok (List.filter selected (IMG_SNAPSHOTS (db w'))), w')
    | Raise e => (Raise e, w')
    end.

Definition get_frame (self : imager) (criteria : option string)
  : M (option (list string)) :=
  match criteria with
  | None => ret None
  | Some criteria =>
      rows <- execute_select criteria ;;
      filenames <- mapM (fun c => save_frame self (fr_id c) (fr_t c) (fr_img c)) rows ;;
      ret (Some filenames)
  end.

(** *** class Annotator *)

(** [int(os.path.basename(f).split("_")[1].split(".")[0])] *)
Definition frame_time (f : string) : outcome Z :=
  match PyString.split "_" (PosixPath.basename f) with
  | _ :: x :: _ =>
      match PyString.split "." x with
      | y :: _ => py_int y
      | [] => Raise IndexError
      end
  | _ => Raise IndexError
  end.

(** [Pool(cores)] refuses a number of processes below one; the arguments
    are built after it. *)
Definition make_pool (filenames : list string) (cores : Z)
  : outcome (list (string * Z)) :=
  if cores <? 1 then Raise (ValueError "Number of processes must be at least 1")
  else omapM (fun f => t <~ frame_time f ;; Ok (f, t)) filenames.

Definition convert_command (filename label out : string) : string :=
  "convert " +:+ filename
  +:+ " -pointsize 50  -font FreeMono -background Khaki  label:'" +:+ label
  +:+ "' +swap -gravity Center -append " +:+ out.

Definition annotate_image (self : imager) (args : string * Z) : M unit :=
  let '(filename, time) := args in
  label <- lift (timestamp_label time (t0 self)) ;;
  let out := PyString.replace "_raw" "" filename in
  e <- os_path_exists out ;;
  if e then ret tt
  else
    let command := convert_command filename label out in
    _ <- os_system command ;;
    os_remove filename.

(** The chunk size [pool.map] chooses for [len] tasks and [cores]
    workers: [divmod(len, cores * 4)], rounded up. *)
Definition chunksize (len : nat) (cores : Z) : nat :=
  let q := Z.of_nat len / (cores * 4) in
  let extra := Z.of_nat len mod (cores * 4) in
  Z.to_nat (if extra =? 0 then q else q + 1).

(** The tasks in batches of [size]; [fuel] is the number of tasks. *)
Fixpoint task_batches {A} (fuel size : nat) (l : list A) : list (list A) :=
  match fuel with
  | O => []
  | S fuel' =>
      match l with
      | [] => []
      | _ => take size l :: task_batches fuel' size (drop size l)
      end
  end.

(** One batch is [list(map(func, batch))]: its first exception ends the
    batch.  The other batches run all the same; when all are done, [map]
    raises the exception of a failed batch.  The workers are separate
    processes: the batches are taken here in list order, and of several
    exceptions the first in that order is the one reported. *)
Fixpoint run_batches {A B} (f : A -> M B) (batches : list (list A))
  : M (list B) :=
  fun w =>
    match batches with
    | [] => (Ok [], w)
    | batch :: rest =>
        let '(o, w1) := mapM f batch w in
        let '(os, w2) := run_batches f rest w1 in
        (match o, os with
         | Ok ys, Ok zs => Ok (ys ++ zs)
         | Raise e, _ => Raise e
         | Ok _, Raise e => Raise e
         end, w2)
    end.

(** [pool.map(func, args)] on a pool of [cores] workers *)
Definition pool_map {A B} (f : A -> M B) (args : list A) (cores : Z) : M (list B) :=
  run_batches f (task_batches (length args) (chunksize (length args) cores) args).

Definition annotate (self : imager) (filenames : option (list string)) (cores : Z)
  : M (option (list string)) :=
  match filenames with
  | None => ret None
  | Some filenames =>
      pool_args <- lift (make_pool filenames cores) ;;
      _ <- pool_map (annotate_image self) pool_args cores ;;
      ret (Some (map (PyString.replace "_raw" "") filenames))
  end.

(** *** class VideoMaker *)

Definition ffmpeg_command (fps : Z) (img_snapshots output : string) : string :=
  "ffmpeg -loglevel panic -y -framerate " +:+ PyInt.str fps
  +:+ " -pattern_type glob -i '" +:+ img_snapshots
  +:+ "/*.jpg' -c:v libx264 " +:+ output.

Definition make_video (self : imager) (fps : Z) : M string :=
  let output := PosixPath.join (img_snapshots self) (filename self +:+ ".mp4") in
  let command := ffmpeg_command fps (img_snapshots self) output in
  _ <- os_system command ;;
  ret output.

(** *** class EthoscopeImager *)

(** The module constant: annotate whatever the caller asks. *)
Definition ANNOTATE : bool := true.

(** The last branch assigns a plain string literal: the braces are not
    interpolated, and [get_criteria] has no [flag] parameter. *)
Definition get_criteria (id t : pyval) : outcome (option string) :=
  id_criteria <~ (if negb (is_None id)
                  then c <~ make_criteria "id" id ;; Ok (Some c) else Ok None) ;;
  t_criteria <~ (if negb (is_None t)
                 then c <~ make_criteria "t" t ;; Ok (Some c) else Ok None) ;;
  if is_None id && is_None t then Ok None
  else if negb (is_None id) && negb (is_None t) then
    Ok (Some "{id_criteria} {flag} {t_criteria}"%string)
  else if is_None id && negb (is_None t) then Ok t_criteria
  else Ok id_criteria.

(** The truth value of [filenames]: [None] and the empty list are false. *)
Definition truthy (filenames : option (list string)) : bool :=
  match filenames with
  | Some (_ :: _) => true
  | _ => false
  end.

(** [run(id, t, flag, annotate, video, **kwargs)]; [fps] is what [kwargs]
    holds for [make_video], whose default is 10. *)
Definition run (self : imager) (id t : pyval) (flag : string)
    (annotate_ video : bool) (fps : option Z) : M (list string) :=
  criteria <- lift (get_criteria id t) ;;
  filenames <- get_frame self criteria ;;
  filenames <- (if (annotate_ || ANNOTATE) && truthy filenames
                then annotate self filenames 4 else ret filenames) ;;
  filenames <- (if video
                then output <- make_video self (default 10 fps) ;; ret (Some [output])
                else ret filenames) ;;
  match filenames with
  | None => list_snapshots self
  | Some filenames => ret filenames
  end.

End Imager.

(** ** Vocabulary of the properties *)

(** The number of times the log records a call of [os.system]. *)
Fixpoint system_calls (l : list event) : nat :=
  match l with
  | [] => O
  | EvSystem _ :: rest => S (system_calls rest)
  | _ :: rest => system_calls rest
  end.

(** Reading a decimal numeral back. *)
Definition digit_value (c : ascii) : option Z :=
  let n := Z.of_nat (nat_of_ascii c) in
  if (48 <=? n) && (n <=? 57) then Some (n - 48) else None.

Fixpoint parse_digits (acc : Z) (s : string) : option Z :=
  match s with
  | EmptyString => Some acc
  | String c s' =>
      match digit_value c with
      | Some d => parse_digits (10 * acc + d) s'
      | None => None
      end
  end.

Definition parse_int (s : string) : option Z :=
  match s with
  | EmptyString => None
  | String "-" EmptyString => None
  | String "-" s' => option_map Z.opp (parse_digits 0 s')
  | _ => parse_digits 0 s
  end.

Fixpoint strip_prefix (p s : string) : option string :=
  match p, s with
  | EmptyString, _ => Some s
  | String a p', String b s' => if Ascii.eqb a b then strip_prefix p' s' else None
  | String _ _, EmptyString => None
  end.

Fixpoint strip_last (c : ascii) (s : string) : option string :=
  match s with
  | EmptyString => None
  | String a EmptyString => if Ascii.eqb a c then Some EmptyString else None
  | String a s' => option_map (String a) (strip_last c s')
  end.

(** The items of a predicate [column in (i1,i2,...)], in order. *)
Definition membership_items (column predicate : string) : option (list string) :=
  match strip_prefix (column +:+ " in (") predicate with
  | Some rest => option_map (PyString.split ",") (strip_last ")" rest)
  | None => None
  end.

Definition is_digit (c : ascii) : bool :=
  match digit_value c with
  | Some _ => true
  | None => false
  end.

(** The characters of [str(n)] and ["%05d" % n]: digits and the sign. *)
Definition numeral_char (c : ascii) : bool := is_digit c || Ascii.eqb c "-".

Fixpoint all_chars (f : ascii -> bool) (s : string) : bool :=
  match s with
  | EmptyString => true
  | String c s' => f c && all_chars f s'
  end.

(** [old in s] *)
Fixpoint contains (old s : string) : bool :=
  match s with
  | EmptyString => PyString.startswith old EmptyString
  | String _ s' => PyString.startswith old s || contains old s'
  end.

(** The five decimal digits of an id below 100000. *)
Definition five_digits (n : Z) : string :=
  String (PyInt.digit_char (n / 10000 mod 10))
    (String (PyInt.digit_char (n / 1000 mod 10))
       (String (PyInt.digit_char (n / 100 mod 10))
          (String (PyInt.digit_char (n / 10 mod 10))
             (String (PyInt.digit_char (n mod 10)) EmptyString)))).

(** Records in the order of recording: by sequence id, then by time
    offset. *)
Definition chronological (id1 t1 id2 t2 : Z) : comparison :=
  match id1 ?= id2 with
  | Eq => t1 ?= t2
  | o => o
  end.

(** What [os.path.join(a, b)] puts in front of a relative [b]. *)
Definition dir_prefix (a : string) : string :=
  if String.eqb a "" || PyString.endswith_char "/" a then a else a +:+ "/".

(** A character that cannot continue a broken-off ["_raw"]. *)
Definition safe_next (c : ascii) : bool :=
  negb (Ascii.eqb "r" c) && negb (Ascii.eqb "a" c) && negb (Ascii.eqb "w" c).

(** Names compare as the records do, by id then time, or by time alone. *)
Definition names_sort_chronologically : Prop :=
  forall (P : Platform) (self : imager) (id1 t1 id2 t2 : Z),
    PyString.compare (file_name self id1 t1) (file_name self id2 t2)
    = chronological id1 t1 id2 t2.

Definition names_sort_by_time : Prop :=
  forall (P : Platform) (self : imager) (id1 t1 id2 t2 : Z),
    PyString.compare (file_name self id1 t1) (file_name self id2 t2)
    = (t1 ?= t2).


(** Three readings of the annotation stage that the facts below test
    against the code. *)

(** A failed tool leaves the raw file and no labeled file. *)
Definition failed_tool_keeps_raw : Prop :=
  forall (P : Platform) (C : @Clock P) (self : imager) (f : string) (time : Z)
         (w : world) (label : string),
    let out := PyString.replace "_raw" "" f in
    let command := convert_command f label out in
    timestamp_label time (t0 self) = Ok label ->
    path_exists f w = true ->
    path_exists out w = false ->
    fst (run_command command (files w)) <> 0 ->
    let w' := snd (annotate_image self (f, time) w) in
    path_exists f w' = true /\ path_exists out w' = false.

(** Once the worker has returned, the raw and the labeled file of
    [(id, t)] do not both exist. *)
Definition annotated_at_most_one : Prop :=
  forall (P : Platform) (C : @Clock P) (self : imager) (id t time : Z) (w : world),
    let r := annotate_image self (file_name_raw self id t, time) w in
    fst r = Ok tt ->
    ~ (path_exists (file_name_raw self id t) (snd r) = true
       /\ path_exists (file_name self id t) (snd r) = true).

(** Two runs of the step on one frame call the tool at most once. *)
Definition annotated_twice_one_call : Prop :=
  forall (P : Platform) (C : @Clock P) (self : imager) (args : string * Z)
         (w : world),
    let w1 := snd (annotate_image self args w) in
    let w2 := snd (annotate_image self args w1) in
    (system_calls (log w2) <= S (system_calls (log w)))%nat.

(** A row whose frame is on disk, raw or labeled. *)
Definition materialized `{P : Platform} (self : imager) (w : world)
    (r : frame_record) : bool :=
  path_exists (file_name self (fr_id r) (fr_t r)) w
  || path_exists (file_name_raw self (fr_id r) (fr_t r)) w.

(** The raw path [get_frame] reports for a row. *)
Definition row_path `{P : Platform} (self : imager) (r : frame_record) : string :=
  file_name_raw self (fr_id r) (fr_t r).

(** The statement [get_frame] executes for a criteria text. *)
Definition select_statement (criteria : string) : string :=
  "SELECT id, t, img FROM IMG_SNAPSHOTS WHERE " +:+ criteria.

(** The path [make_video] returns. *)
Definition video_path `{P : Platform} (self : imager) : string :=
  PosixPath.join (img_snapshots self) (filename self +:+ ".mp4").

(** The attributes of an imager agree the way [__init__] sets them:
    [self.img_snapshots = os.path.join(self.experiment_folder,
    "IMG_SNAPSHOTS")]. *)
Definition well_formed `{P : Platform} (self : imager) : Prop :=
  img_snapshots self = PosixPath.join (experiment_folder self) "IMG_SNAPSHOTS".

(** Without filters and without video, [run] returns the files of the
    snapshot directory that match [*.jpg]. *)
Definition run_lists_directory : Prop :=
  forall (P : Platform) (C : @Clock P) (self : imager) (flag : string) (a : bool)
         (fps : option Z) (w : world),
    well_formed self ->
    exists l,
      run self (PyAtom ANone) (PyAtom ANone) flag a false fps w = (Ok l, w)
      /\ forall p, In p l <->
           path_exists p w = true /\ jpg_in (img_snapshots self) p = true.


(** ** Sample platforms and worlds for closed examples *)

Definition sample_float (v : sqlval) : outcome Z :=
  match v with
  | SqlInt z => Ok z
  | SqlText s =>
      match parse_int s with
      | Some z => Ok z
      | None => Raise (ValueError s)
      end
  | _ => Raise TypeError
  end.

Definition sample_int (s : string) : outcome Z :=
  match parse_int s with
  | Some z => Ok z
  | None => Raise (ValueError s)
  end.

(** A platform on which the labelling tool is missing: [os.system]
    reports status 32512 (exit code 127) and no file changes. *)
Definition no_tool : Platform :=
  {| pyfloat := Z;
     py_float := sample_float;
     py_int := sample_int;
     run_command := fun _ fs => (32512, fs);
     sqlite_where := fun _ => Ok (fun _ => true);
     glob_magic := fun _ _ => [] |}.

(** A platform on which every command succeeds and writes one fixed file. *)
Definition writing_tool (out : string) (data : bytes) : Platform :=
  {| pyfloat := Z;
     py_float := sample_float;
     py_int := sample_int;
     run_command := fun _ fs => (0, <[out := data]> fs);
     sqlite_where := fun _ => Ok (fun _ => true);
     glob_magic := fun _ _ => [] |}.

(** A platform whose SQLite refuses a criteria text that holds a brace. *)
Definition strict_sqlite : Platform :=
  {| pyfloat := Z;
     py_float := sample_float;
     py_int := sample_int;
     run_command := fun _ fs => (32512, fs);
     sqlite_where := fun c =>
       if PyString.contains_char "{" c
       then Raise (OperationalError (select_statement c))
       else Ok (fun _ => true);
     glob_magic := fun _ _ => [] |}.

Definition sample_clock (P : Platform) : @Clock P :=
  {| timestamp_label := fun _ _ => Ok "1970-01-01 00:00:02"%string |}.

(** A clock that refuses the times after the year 9999, as
    [fromtimestamp] does. *)
Definition bounded_clock (P : Platform) : @Clock P :=
  {| timestamp_label := fun time _ =>
       if 253402300799 <? time / 1000
       then Raise (ValueError "year is out of range")
       else Ok "1970-01-01 00:00:02"%string |}.

Definition sample_self (P : Platform) : @imager P :=
  Imager "/data/x.db" "x.db" "/data" "/data/IMG_SNAPSHOTS" (NumInt 0).

Definition sample_raw : string := "/data/IMG_SNAPSHOTS/00003_2000_raw.jpg".
Definition sample_labeled : string := "/data/IMG_SNAPSHOTS/00003_2000.jpg".

Definition sample_archive : archive :=
  Archive [(SqlText "date_time", SqlText "1700000000")]
          [FrameRecord 3 2000 [Byte.x4a; Byte.x46]].

Definition empty_world : world := World ∅ sample_archive [].

Definition undated_world : world :=
  World ∅ (Archive [(SqlText "machine_name", SqlText "ETHOSCOPE_001")] []) [].

Definition raw_world : world :=
  World {[ sample_raw := [Byte.x4a; Byte.x46] ]} sample_archive [].

(** A folder whose name holds a bracket.  With this file alone on disk,
    [glob] finds nothing for the pattern of the snapshot directory: the
    component [a[1]] of the pattern matches the name [a1] only. *)
Definition bracket_self (P : Platform) : @imager P :=
  Imager "/data/a[1]/x.db" "x.db" "/data/a[1]" "/data/a[1]/IMG_SNAPSHOTS" (NumInt 0).

Definition bracket_world : world :=
  World {[ "/data/a[1]/IMG_SNAPSHOTS/00003_2000.jpg"%string := [Byte.x4c] ]}
        sample_archive [].


Definition both_world : world :=
  World {[ sample_raw := [Byte.x4a; Byte.x46]; sample_labeled := [Byte.x4c] ]}
        sample_archive [].

(** * Part II: facts *)

(** ** Files *)

Lemma path_exists_insert (p q : string) (b : bytes) (fs : gmap string bytes) a l :
  path_exists p (World (<[q := b]> fs) a l)
  = if decide (q = p) then true else path_exists p (World fs a l).
Proof.
  unfold path_exists; simpl. rewrite lookup_insert.
  destruct (decide (q = p)); [|reflexivity].
  apply bool_decide_eq_true. eauto.
Qed.

Lemma path_exists_delete (p q : string) (fs : gmap string bytes) a l :
  path_exists p (World (delete q fs) a l)
  = if decide (q = p) then false else path_exists p (World fs a l).
Proof.
  unfold path_exists; simpl. rewrite lookup_delete.
  destruct (decide (q = p)); [|reflexivity].
  apply bool_decide_eq_false. intros [x Hx]. discriminate.
Qed.

Lemma path_exists_files (p : string) (w w' : world) :
  files w = files w' -> path_exists p w = path_exists p w'.
Proof. unfold path_exists. intros ->. reflexivity. Qed.

Lemma world_eta (w : world) : World (files w) (db w) (log w) = w.
Proof. destruct w; reflexivity. Qed.

(** ** ImageExtractor.save_frame *)

Section SaveFrame.
Context `{P : Platform}.

Lemma save_frame_present (self : imager) (id t : Z) (blob : bytes) (w : world) :
  path_exists (file_name self id t) w || path_exists (file_name_raw self id t) w = true ->
  save_frame self id t blob w = (Ok (file_name_raw self id t), w).
Proof.
  intros H. unfold save_frame, bind, os_path_exists, ret.
  rewrite H. reflexivity.
Qed.

Lemma save_frame_absent (self : imager) (id t : Z) (blob : bytes) (w : world) :
  path_exists (file_name self id t) w || path_exists (file_name_raw self id t) w = false ->
  save_frame self id t blob w
  = (Ok (file_name_raw self id t),
     World (<[file_name_raw self id t := blob]> (files w)) (db w)
           (log w ++ [EvWrite (file_name_raw self id t) blob])).
Proof.
  intros H. unfold save_frame, bind, os_path_exists, ret, write_file.
  rewrite H. reflexivity.
Qed.

(** C1. Materializing a record twice returns the same path both times and
    the second call leaves the world (files and effect log) as the first
    call left it; whenever the raw or the labeled path of [(id, t)] exists,
    [save_frame] returns the raw path and writes nothing. *)
Theorem save_frame_idempotent (self : imager) (id t : Z) (blob : bytes) (w : world) :
  let first := save_frame self id t blob w in
  let second := save_frame self id t blob (snd first) in
  fst first = Ok (file_name_raw self id t)
  /\ second = (Ok (file_name_raw self id t), snd first)
  /\ (path_exists (file_name_raw self id t) w = true
      \/ path_exists (file_name self id t) w = true ->
      first = (Ok (file_name_raw self id t), w)).
Proof.
  intros first second.
  destruct (path_exists (file_name self id t) w
            || path_exists (file_name_raw self id t) w) eqn:E.
  - pose proof (save_frame_present self id t blob w E) as H1.
    subst second. subst first. rewrite H1. simpl.
    rewrite H1. auto.
  - pose proof (save_frame_absent self id t blob w E) as H1.
    subst second. subst first. rewrite H1. simpl.
    split; [reflexivity|]. split.
    + apply save_frame_present.
      rewrite (path_exists_insert (file_name_raw self id t)).
      rewrite decide_True by reflexivity.
      apply orb_true_r.
    + apply orb_false_elim in E. destruct E as [E1 E2].
      intros [H|H]; congruence.
Qed.

End SaveFrame.

Lemma save_frame_idempotent_witness :
  path_exists sample_labeled both_world = true
  /\ save_frame (sample_self no_tool) 3 2000 [Byte.x00] both_world
     = (Ok sample_raw, both_world).
Proof.
  split; [reflexivity|].
  apply (save_frame_idempotent (P := no_tool) (sample_self no_tool) 3 2000 [Byte.x00] both_world).
  right. vm_compute. reflexivity.
Defined.

(** ** ImageExtractor.make_criteria and EthoscopeImager.get_criteria *)

Lemma make_criteria_list (column : string) (l : list atom) :
  make_criteria column (PyList l)
  = Ok (column +:+ " in (" +:+ PyString.join "," (map str_atom l) +:+ ")").
Proof. reflexivity. Qed.

Lemma make_criteria_not_list (column : string) (a : atom) :
  make_criteria column (PyAtom a) = Raise (NameError "Integer").
Proof. destruct a; reflexivity. Qed.

Lemma lookup_Integer : lookup_name "Integer" = Raise (NameError "Integer").
Proof. reflexivity. Qed.

(** C4. On an integer scalar [make_criteria] does not return the equality
    predicate: the test [isinstance(value, Integer)] evaluates a name the
    module never binds, and the call ends in [NameError]. *)
Theorem make_criteria_int_scalar (column : string) (z : Z) :
  make_criteria column (PyAtom (AInt z)) = Raise (NameError "Integer").
Proof. apply make_criteria_not_list. Qed.

Example make_criteria_id_5 :
  make_criteria "id" (PyAtom (AInt 5)) = Raise (NameError "Integer").
Proof. reflexivity. Qed.

Example make_criteria_list_of_text :
  make_criteria "id" (PyList [AStr "a"; ANone]) = Ok "id in (a,None)"%string.
Proof. reflexivity. Qed.

Lemma get_criteria_neither : get_criteria (PyAtom ANone) (PyAtom ANone) = Ok None.
Proof. reflexivity. Qed.

Lemma get_criteria_id_only (l : list atom) :
  get_criteria (PyList l) (PyAtom ANone)
  = Ok (Some ("id in (" +:+ PyString.join "," (map str_atom l) +:+ ")")).
Proof. reflexivity. Qed.

Lemma get_criteria_t_only (l : list atom) :
  get_criteria (PyAtom ANone) (PyList l)
  = Ok (Some ("t in (" +:+ PyString.join "," (map str_atom l) +:+ ")")).
Proof. reflexivity. Qed.

Lemma get_criteria_None_iff (id t : pyval) :
  get_criteria id t = Ok None <-> is_None id = true /\ is_None t = true.
Proof.
  split.
  - destruct id as [[| | |]|l], t as [[| | |]|l']; simpl; intros H;
      try discriminate H; auto.
  - intros [H1 H2].
    destruct id as [[| | |]|l]; try discriminate H1.
    destruct t as [[| | |]|l']; try discriminate H2.
    reflexivity.
Qed.

(** C3. With both filters supplied (as lists, the only values
    [make_criteria] accepts) the criteria builder returns the text of its
    template, braces included, whatever the connective: neither predicate
    and no connective is part of the result. *)
Theorem get_criteria_both_template (ids ts : list atom) :
  get_criteria (PyList ids) (PyList ts)
  = Ok (Some "{id_criteria} {flag} {t_criteria}"%string).
Proof. reflexivity. Qed.

Example get_criteria_1_2 :
  get_criteria (PyList [AInt 1]) (PyList [AInt 2])
  = Ok (Some "{id_criteria} {flag} {t_criteria}"%string).
Proof. reflexivity. Qed.

(** ** ImageExtractor.get_t0, get_frame and EthoscopeImager.run *)

Section Orchestrator.
Context `{P : Platform} `{C : @Clock P}.

(** The connective is accepted by [run] and never read. *)
Lemma run_ignores_flag (self : imager) (id t : pyval) (flag flag' : string)
    (a v : bool) (fps : option Z) :
  run self id t flag a v fps = run self id t flag' a v fps.
Proof. reflexivity. Qed.

Lemma get_frame_None (self : imager) (w : world) :
  get_frame self None w = (Ok None, w).
Proof. reflexivity. Qed.

Lemma list_snapshots_returns (self : imager) (w : world) :
  exists l, list_snapshots self w = (Ok l, w).
Proof.
  unfold list_snapshots, glob_jpg.
  destruct (has_magic (img_snapshots self)); eauto.
Qed.

Lemma list_snapshots_spec (self : imager) (w : world) :
  has_magic (img_snapshots self) = false ->
  exists l, list_snapshots self w = (Ok l, w)
    /\ forall p, In p l <-> path_exists p w = true /\ jpg_in (img_snapshots self) p = true.
Proof.
  intros Hm. unfold list_snapshots, glob_jpg. rewrite Hm.
  eexists. split; [reflexivity|]. intros p.
  rewrite <- list_elem_of_In, list_elem_of_filter, list_elem_of_In, in_map_iff.
  unfold path_exists. rewrite bool_decide_eq_true. split.
  - intros [Hj [[q b] [Hq Hin]]]. simpl in Hq. subst q.
    apply list_elem_of_In, elem_of_map_to_list in Hin. split; eauto.
  - intros [[b Hb] Hj]. split; [exact Hj|].
    exists (p, b). split; [reflexivity|].
    apply list_elem_of_In, elem_of_map_to_list. exact Hb.
Qed.

(** C9, as the code has it. [get_frame] on [None] returns [None], not a
    list, and leaves the world as it is: no statement is executed.  [run]
    without filters and without video then returns what [list_snapshots]
    returns, a list, with the world unchanged.  For an imager as
    [__init__] builds it whose snapshot directory has a path without
    pattern characters, that list holds exactly the paths of the existing
    files of the directory that match [*.jpg]. *)
Theorem run_without_criteria (self : imager) (flag : string) (a : bool)
    (fps : option Z) (w : world) :
  get_frame self None w = (Ok None, w)
  /\ run self (PyAtom ANone) (PyAtom ANone) flag a false fps w = list_snapshots self w
  /\ (exists l, run self (PyAtom ANone) (PyAtom ANone) flag a false fps w = (Ok l, w))
  /\ (well_formed self ->
      has_magic (img_snapshots self) = false ->
      exists l,
        run self (PyAtom ANone) (PyAtom ANone) flag a false fps w = (Ok l, w)
        /\ forall p, In p l <->
             path_exists p w = true /\ jpg_in (img_snapshots self) p = true).
Proof.
  split; [reflexivity|].
  assert (Hrun : run self (PyAtom ANone) (PyAtom ANone) flag a false fps w
                 = list_snapshots self w).
  { unfold run, bind, lift. simpl. rewrite orb_true_r. simpl.
    destruct (list_snapshots self w) as [[l|e] w']; reflexivity. }
  split; [exact Hrun|]. rewrite Hrun. split.
  - apply list_snapshots_returns.
  - intros _ Hm. apply list_snapshots_spec. exact Hm.
Qed.

(** With a video requested the result is the video alone, never [None]. *)
Lemma run_video_without_criteria (self : imager) (flag : string) (a : bool)
    (fps : option Z) (w : world) :
  fst (run self (PyAtom ANone) (PyAtom ANone) flag a true fps w)
  = Ok [PosixPath.join (img_snapshots self) (filename self +:+ ".mp4")].
Proof.
  unfold run, bind, lift. simpl. rewrite orb_true_r. simpl.
  unfold make_video, bind, os_system, ret.
  destruct (run_command _ (files w)) as [st fs]. reflexivity.
Qed.












(** The label of a frame is computed from the [t0] of the imager. *)
Lemma annotate_image_command (self : imager) (f : string) (time : Z) (w : world)
    (label : string) :
  timestamp_label time (t0 self) = Ok label ->
  path_exists (PyString.replace "_raw" "" f) w = false ->
  exists l,
    log (snd (annotate_image self (f, time) w))
    = log w ++ EvSystem (convert_command f label (PyString.replace "_raw" "" f)) :: l.
Proof.
  intros L H. unfold annotate_image, bind, lift, os_path_exists, os_system, os_remove.
  rewrite L, H. destruct (run_command _ (files w)) as [st fs].
  match goal with |- context [path_exists f ?w'] => destruct (path_exists f w') end;
    simpl; [exists [EvRemove f]|exists []]; [rewrite <- app_assoc|]; reflexivity.
Qed.

End Orchestrator.

Lemma run_without_criteria_witness :
  exists l,
    run (P := no_tool) (C := sample_clock no_tool) (sample_self no_tool)
      (PyAtom ANone) (PyAtom ANone) "OR" false false None raw_world
    = (Ok l, raw_world)
    /\ forall p, In p l <->
         path_exists p raw_world = true
         /\ jpg_in (img_snapshots (sample_self no_tool)) p = true.
Proof.
  apply (proj2 (proj2 (proj2
           (run_without_criteria (P := no_tool) (C := sample_clock no_tool)
              (sample_self no_tool) "OR" false None raw_world)))).
  - reflexivity.
  - reflexivity.
Defined.

(** C9 as the spec words it does not hold for every directory.  [glob]
    reads the snapshot directory as a pattern: for the experiment folder
    [/data/a[1]] the pattern [/data/a[1]/IMG_SNAPSHOTS/*.jpg] describes
    the files of [/data/a1/IMG_SNAPSHOTS], so the snapshot that
    [save_frame] wrote under [/data/a[1]/IMG_SNAPSHOTS] is not listed. *)
Lemma run_lists_directory_fails : ~ run_lists_directory.
Proof.
  intros H.
  destruct (H no_tool (sample_clock no_tool) (bracket_self no_tool) "OR"%string
              false None bracket_world eq_refl) as (l & E & Hl).
  assert (R : run (P := no_tool) (C := sample_clock no_tool) (bracket_self no_tool)
                (PyAtom ANone) (PyAtom ANone) "OR" false false None bracket_world
              = (Ok [], bracket_world)) by reflexivity.
  rewrite R in E. injection E as <-.
  apply (proj2 (Hl "/data/a[1]/IMG_SNAPSHOTS/00003_2000.jpg"%string)).
  split; reflexivity.
Qed.



(** ** Annotator.annotate_image *)

Lemma system_calls_app (l l' : list event) :
  system_calls (l ++ l') = (system_calls l + system_calls l')%nat.
Proof.
  induction l as [|e l IH]; [reflexivity|].
  destruct e; simpl; rewrite IH; reflexivity.
Qed.

Section Annotate.
Context `{P : Platform} `{C : @Clock P}.

(** The label is computed first: its exception ends the step before any
    file is looked at. *)
Lemma annotate_image_label_raises (self : imager) (f : string) (time : Z)
    (w : world) (e : exn) :
  timestamp_label time (t0 self) = Raise e ->
  annotate_image self (f, time) w = (Raise e, w).
Proof.
  intros L. unfold annotate_image, bind, lift. rewrite L. reflexivity.
Qed.

(** The labeled file is there: the step returns at once. *)
Lemma annotate_image_skip (self : imager) (f : string) (time : Z) (w : world)
    (label : string) :
  timestamp_label time (t0 self) = Ok label ->
  path_exists (PyString.replace "_raw" "" f) w = true ->
  annotate_image self (f, time) w = (Ok tt, w).
Proof.
  intros L H. unfold annotate_image, bind, lift, os_path_exists.
  rewrite L, H. reflexivity.
Qed.

Lemma annotate_image_skip_world (self : imager) (f : string) (time : Z) (w : world) :
  path_exists (PyString.replace "_raw" "" f) w = true ->
  snd (annotate_image self (f, time) w) = w.
Proof.
  intros H. destruct (timestamp_label time (t0 self)) as [label|e] eqn:L.
  - rewrite (annotate_image_skip self f time w label L H). reflexivity.
  - rewrite (annotate_image_label_raises self f time w e L). reflexivity.
Qed.

(** The labeled file is not there: the tool runs, and the raw file is
    removed if it is still there, whatever status the tool reported. *)
Lemma annotate_image_run (self : imager) (f : string) (time : Z) (w : world)
    (label : string) (status : Z) (fs : gmap string bytes) :
  let out := PyString.replace "_raw" "" f in
  let command := convert_command f label out in
  timestamp_label time (t0 self) = Ok label ->
  path_exists out w = false ->
  run_command command (files w) = (status, fs) ->
  annotate_image self (f, time) w
  = if bool_decide (is_Some (fs !! f))
    then (Ok tt, World (delete f fs) (db w) (log w ++ [EvSystem command; EvRemove f]))
    else (Raise (FileNotFoundError f), World fs (db w) (log w ++ [EvSystem command])).
Proof.
  intros out command L H R.
  unfold annotate_image, bind, lift, os_path_exists, os_system, os_remove.
  rewrite L. fold out. rewrite H. fold command. rewrite R. unfold path_exists. simpl.
  destruct (bool_decide (is_Some (fs !! f))); [|reflexivity].
  rewrite <- app_assoc. reflexivity.
Qed.

Lemma annotate_image_files (self : imager) (f : string) (time : Z) (w : world)
    (label : string) (status : Z) (fs : gmap string bytes) :
  let out := PyString.replace "_raw" "" f in
  let command := convert_command f label out in
  timestamp_label time (t0 self) = Ok label ->
  path_exists out w = false ->
  run_command command (files w) = (status, fs) ->
  files (snd (annotate_image self (f, time) w)) = delete f fs.
Proof.
  intros out command L H R.
  rewrite (annotate_image_run self f time w label status fs L H R).
  destruct (bool_decide (is_Some (fs !! f))) eqn:E; [reflexivity|].
  simpl. symmetry. apply delete_id.
  apply bool_decide_eq_false in E. destruct (fs !! f) eqn:G; [|reflexivity].
  exfalso. apply E. eauto.
Qed.

Lemma annotate_image_raw_gone (self : imager) (f : string) (time : Z) (w : world)
    (label : string) :
  timestamp_label time (t0 self) = Ok label ->
  path_exists (PyString.replace "_raw" "" f) w = false ->
  path_exists f (snd (annotate_image self (f, time) w)) = false.
Proof.
  intros L H.
  destruct (run_command
              (convert_command f label (PyString.replace "_raw" "" f)) (files w))
    as [status fs] eqn:R.
  pose proof (annotate_image_files self f time w label status fs L H R) as F.
  unfold path_exists. rewrite F, lookup_delete_eq.
  apply bool_decide_eq_false. intros [x Hx]. discriminate.
Qed.

Lemma annotate_image_calls (self : imager) (args : string * Z) (w : world) :
  (system_calls (log (snd (annotate_image self args w)))
   <= S (system_calls (log w)))%nat.
Proof.
  destruct args as [f time].
  destruct (timestamp_label time (t0 self)) as [label|e] eqn:L.
  - destruct (path_exists (PyString.replace "_raw" "" f) w) eqn:H.
    + rewrite (annotate_image_skip self f time w label L H). simpl. lia.
    + destruct (run_command
                  (convert_command f label (PyString.replace "_raw" "" f)) (files w))
        as [status fs] eqn:R.
      rewrite (annotate_image_run self f time w label status fs L H R).
      destruct (bool_decide _); simpl; rewrite system_calls_app; simpl; lia.
  - rewrite (annotate_image_label_raises self f time w e L). simpl. lia.
Qed.

(** C2, as the code has it. When the label of the frame can be computed
    and the labeled file is not there, the step runs the tool and then
    removes the raw file whatever status the tool reported (the status is
    not looked at): the files afterwards are the files the tool left, less
    the raw file.  After a run of the tool that changed no file, neither
    the raw nor the labeled file exists.  When the computation of the label
    raises, the step raises with it and nothing is changed. *)
Theorem annotate_image_failed_tool (self : imager) (f : string) (time : Z)
    (w : world) :
  let out := PyString.replace "_raw" "" f in
  let w' := snd (annotate_image self (f, time) w) in
  (forall (label : string) (status : Z) (fs : gmap string bytes),
      timestamp_label time (t0 self) = Ok label ->
      path_exists out w = false ->
      run_command (convert_command f label out) (files w) = (status, fs) ->
      files w' = delete f fs
      /\ path_exists f w' = false
      /\ (fs = files w -> path_exists out w' = false))
  /\ (forall e, timestamp_label time (t0 self) = Raise e ->
                annotate_image self (f, time) w = (Raise e, w)).
Proof.
  intros out w'. split.
  - intros label status fs L H R.
    pose proof (annotate_image_files self f time w label status fs L H R) as F.
    fold w' in F. split; [exact F|]. split.
    + apply (annotate_image_raw_gone self f time w label L H).
    + intros ->. unfold path_exists in *. rewrite F.
      apply bool_decide_eq_false. intros [x Hx].
      apply lookup_delete_Some in Hx. destruct Hx as [_ Hx].
      apply bool_decide_eq_false in H. apply H. eauto.
  - intros e L. apply annotate_image_label_raises. exact L.
Qed.

(** C6, as the code has it. When the labeled path exists the step changes
    nothing, no tool is called and no file written: it returns at once
    when its label can be computed (the label is computed first, and its
    exception is the outcome otherwise).  Two runs on one frame call the
    tool at most once in total when the labeled path exists after the
    first run. *)
Theorem annotate_image_twice (self : imager) (f : string) (time : Z) (w : world) :
  let out := PyString.replace "_raw" "" f in
  let w1 := snd (annotate_image self (f, time) w) in
  let w2 := snd (annotate_image self (f, time) w1) in
  (path_exists out w = true ->
   snd (annotate_image self (f, time) w) = w
   /\ forall label, timestamp_label time (t0 self) = Ok label ->
                    annotate_image self (f, time) w = (Ok tt, w))
  /\ (path_exists out w1 = true ->
      w2 = w1 /\ (system_calls (log w2) <= S (system_calls (log w)))%nat).
Proof.
  intros out w1 w2. split.
  - intros H. split.
    + apply annotate_image_skip_world. exact H.
    + intros label L. apply (annotate_image_skip self f time w label L H).
  - intros H. assert (E : w2 = w1).
    { subst w2. apply annotate_image_skip_world. exact H. }
    split; [exact E|]. rewrite E. apply annotate_image_calls.
Qed.

End Annotate.

(** C2 fails on the code: with the tool missing, the raw file of the sample
    frame is gone after the step. *)
Lemma failed_tool_keeps_raw_fails : ~ failed_tool_keeps_raw.
Proof.
  intros H.
  specialize (H no_tool (sample_clock no_tool) (sample_self no_tool)
                sample_raw 2000 raw_world "1970-01-01 00:00:02"%string).
  cbv zeta in H.
  assert (G : path_exists sample_raw
                (snd (annotate_image (P := no_tool) (C := sample_clock no_tool)
                        (sample_self no_tool) (sample_raw, 2000) raw_world)) = false)
    by (vm_compute; reflexivity).
  destruct H as [H _].
  - reflexivity.
  - vm_compute; reflexivity.
  - vm_compute; reflexivity.
  - vm_compute. discriminate.
  - rewrite G in H. discriminate.
Qed.

Lemma annotate_image_failed_tool_witness :
  (let w' := snd (annotate_image (P := no_tool) (C := sample_clock no_tool)
                    (sample_self no_tool) (sample_raw, 2000) raw_world) in
   files w' = delete sample_raw (files raw_world)
   /\ path_exists sample_raw w' = false
   /\ (files raw_world = files raw_world -> path_exists sample_labeled w' = false))
  /\ annotate_image (P := no_tool) (C := bounded_clock no_tool)
        (sample_self no_tool) (sample_raw, 999999999999999999) raw_world
      = (Raise (ValueError "year is out of range"), raw_world).
Proof.
  split.
  - apply (proj1 (annotate_image_failed_tool (P := no_tool) (C := sample_clock no_tool)
                    (sample_self no_tool) sample_raw 2000 raw_world)
             "1970-01-01 00:00:02"%string 32512 (files raw_world)).
    + reflexivity.
    + vm_compute; reflexivity.
    + reflexivity.
  - apply (proj2 (annotate_image_failed_tool (P := no_tool) (C := bounded_clock no_tool)
                    (sample_self no_tool) sample_raw 999999999999999999 raw_world)).
    reflexivity.
Defined.

(** C6 fails on the code: with the tool missing, two runs call it twice. *)
Lemma annotated_twice_one_call_fails : ~ annotated_twice_one_call.
Proof.
  intros H.
  specialize (H no_tool (sample_clock no_tool) (sample_self no_tool)
                (sample_raw, 2000) raw_world).
  vm_compute in H. lia.
Qed.

Lemma annotate_image_twice_witness :
  annotate_image (P := no_tool) (C := sample_clock no_tool)
    (sample_self no_tool) (sample_raw, 2000) both_world = (Ok tt, both_world).
Proof.
  apply (proj2 (proj1 (annotate_image_twice (P := no_tool) (C := sample_clock no_tool)
                         (sample_self no_tool) sample_raw 2000 both_world)
                  ltac:(vm_compute; reflexivity))
           "1970-01-01 00:00:02"%string).
  reflexivity.
Defined.

(** ** Strings *)

Module PyStringFacts.

Lemma app_cons (c : ascii) (s t : string) :
  String c s +:+ t = String c (s +:+ t).
Proof. reflexivity. Qed.

Lemma app_nil_r (s : string) : s +:+ "" = s.
Proof. induction s as [|c s IH]; [reflexivity|]. rewrite app_cons, IH. reflexivity. Qed.

Lemma app_assoc (s t u : string) : (s +:+ t) +:+ u = s +:+ (t +:+ u).
Proof.
  induction s as [|c s IH]; [reflexivity|].
  rewrite !app_cons, IH. reflexivity.
Qed.

Lemma app_length (s t : string) :
  String.length (s +:+ t) = (String.length s + String.length t)%nat.
Proof.
  induction s as [|c s IH]; [reflexivity|].
  rewrite app_cons. simpl. rewrite IH. reflexivity.
Qed.

Lemma compare_refl (s : string) : PyString.compare s s = Eq.
Proof.
  induction s as [|c s IH]; [reflexivity|].
  simpl. rewrite Z.compare_refl. exact IH.
Qed.

Lemma compare_app_l (p s t : string) :
  PyString.compare (p +:+ s) (p +:+ t) = PyString.compare s t.
Proof.
  induction p as [|c p IH]; [reflexivity|].
  rewrite !app_cons. simpl. rewrite Z.compare_refl. exact IH.
Qed.

End PyStringFacts.

(** ** Decimal numerals *)

Module PyIntFacts.
Import PyInt.

Lemma digits_aux_acc (f : nat) (n : Z) (acc : string) :
  digits_aux f n acc = digits_aux f n "" +:+ acc.
Proof.
  revert n acc. induction f as [|f IH]; intros n acc; simpl.
  - reflexivity.
  - destruct (n / 10 =? 0); [reflexivity|].
    rewrite (IH (n / 10) (String _ acc)), (IH (n / 10) (String _ "")).
    rewrite PyStringFacts.app_assoc. reflexivity.
Qed.

Lemma digits_aux_enough (f1 f2 : nat) (n : Z) (acc : string) :
  0 <= n < 10 ^ (Z.of_nat f1 + 1) ->
  0 <= n < 10 ^ (Z.of_nat f2 + 1) ->
  digits_aux f1 n acc = digits_aux f2 n acc.
Proof.
  revert f2 n acc. induction f1 as [|f1 IH]; intros f2 n acc H1 H2.
  - change (10 ^ (Z.of_nat 0 + 1)) with 10 in H1.
    destruct f2 as [|f2]; [reflexivity|]. simpl.
    replace (n / 10) with 0 by (symmetry; apply Z.div_small; lia).
    reflexivity.
  - simpl. destruct (n / 10 =? 0) eqn:E.
    + destruct f2 as [|f2]; [reflexivity|]. simpl. rewrite E. reflexivity.
    + apply Z.eqb_neq in E.
      assert (10 <= n).
      { destruct (Z_lt_le_dec n 10) as [L|L]; [|exact L].
        exfalso. apply E. apply Z.div_small. lia. }
      destruct f2 as [|f2].
      { change (10 ^ (Z.of_nat 0 + 1)) with 10 in H2. lia. }
      simpl. destruct (n / 10 =? 0) eqn:E'; [apply Z.eqb_eq in E'; contradiction|].
      assert (B : forall f : nat, n < 10 ^ (Z.of_nat (S f) + 1) ->
                                  n / 10 < 10 ^ (Z.of_nat f + 1)).
      { intros f Hf. apply Z.div_lt_upper_bound; [lia|].
        replace (Z.of_nat (S f) + 1) with (Z.succ (Z.of_nat f + 1)) in Hf by lia.
        rewrite Z.pow_succ_r in Hf by lia. exact Hf. }
      apply IH; (split; [apply Z.div_pos; lia|apply B; lia]).
Qed.

Lemma log2_fuel (n : Z) :
  0 <= n -> 0 <= n < 10 ^ (Z.of_nat (Z.to_nat (Z.log2 n)) + 1).
Proof.
  intros Hn. split; [exact Hn|].
  destruct (Z.eq_dec n 0) as [->|Hz]; [reflexivity|].
  assert (Hp : 0 < n) by lia.
  pose proof (Z.log2_spec n Hp) as [_ H].
  pose proof (Z.log2_nonneg n). rewrite Z2Nat.id by lia.
  eapply Z.lt_le_trans; [exact H|]. unfold Z.succ.
  apply Z.pow_le_mono_l. lia.
Qed.

(** One decimal digit. *)
Lemma str_nonneg_small (n : Z) :
  0 <= n < 10 -> str_nonneg n = String (digit_char n) "".
Proof.
  intros H. unfold str_nonneg.
  rewrite (digits_aux_enough _ O n "").
  - simpl. rewrite Z.mod_small by lia. reflexivity.
  - apply log2_fuel; lia.
  - change (10 ^ (Z.of_nat 0 + 1)) with 10. lia.
Qed.

(** More digits: the numeral of [n / 10], then the last digit. *)
Lemma str_nonneg_step (n : Z) :
  10 <= n ->
  str_nonneg n = str_nonneg (n / 10) +:+ String (digit_char (n mod 10)) "".
Proof.
  intros H. unfold str_nonneg.
  assert (L : 3 <= Z.log2 n).
  { change 3 with (Z.log2 8). apply Z.log2_le_mono. lia. }
  destruct (Z.to_nat (Z.log2 n)) as [|f] eqn:F; [lia|].
  simpl. destruct (n / 10 =? 0) eqn:E.
  { apply Z.eqb_eq in E. pose proof (Z.div_le_lower_bound n 10 1). lia. }
  rewrite digits_aux_acc. f_equal.
  apply digits_aux_enough.
  - split; [apply Z.div_pos; lia|].
    apply Z.div_lt_upper_bound; [lia|].
    pose proof (log2_fuel n ltac:(lia)) as [_ B]. rewrite F in B.
    replace (Z.of_nat (S f) + 1) with (Z.succ (Z.of_nat f + 1)) in B by lia.
    rewrite Z.pow_succ_r in B by lia. exact B.
  - apply log2_fuel. apply Z.div_pos; lia.
Qed.

(** Induction along the numeral. *)
Lemma decimal_ind (Q : Z -> Prop) :
  (forall n, 0 <= n < 10 -> Q n) ->
  (forall n, 10 <= n -> Q (n / 10) -> Q n) ->
  forall n, 0 <= n -> Q n.
Proof.
  intros Hs Hl n Hn.
  refine (Z_lt_induction (fun m => 0 <= m -> Q m) _ n Hn Hn).
  intros m IH Hm.
  destruct (Z_lt_le_dec m 10) as [L|L]; [apply Hs; lia|].
  apply Hl; [exact L|]. apply IH.
  - split; [apply Z.div_pos; lia|]. apply Z.div_lt; lia.
  - apply Z.div_pos; lia.
Qed.

Lemma digit_cases (d : Z) :
  0 <= d < 10 ->
  d = 0 \/ d = 1 \/ d = 2 \/ d = 3 \/ d = 4 \/ d = 5 \/ d = 6 \/ d = 7
  \/ d = 8 \/ d = 9.
Proof. lia. Qed.

Ltac each_digit d H :=
  destruct (digit_cases d H) as [?|[?|[?|[?|[?|[?|[?|[?|[?|?]]]]]]]]]; subst d.

Lemma digit_char_value (d : Z) :
  0 <= d < 10 -> digit_value (digit_char d) = Some d.
Proof. intros H. each_digit d H; reflexivity. Qed.

Lemma digit_char_code (d : Z) :
  0 <= d < 10 -> Z.of_nat (nat_of_ascii (digit_char d)) = 48 + d.
Proof. intros H. each_digit d H; reflexivity. Qed.

Lemma digit_char_is_digit (d : Z) : 0 <= d < 10 -> is_digit (digit_char d) = true.
Proof. intros H. unfold is_digit. rewrite digit_char_value by exact H. reflexivity. Qed.

Lemma all_chars_app (f : ascii -> bool) (s t : string) :
  all_chars f (s +:+ t) = all_chars f s && all_chars f t.
Proof.
  induction s as [|c s IH]; [reflexivity|].
  rewrite PyStringFacts.app_cons. simpl. rewrite IH, andb_assoc. reflexivity.
Qed.

Lemma all_chars_weaken (f g : ascii -> bool) (s : string) :
  (forall c, f c = true -> g c = true) ->
  all_chars f s = true -> all_chars g s = true.
Proof.
  intros H. induction s as [|c s IH]; [reflexivity|]. simpl.
  intros E. apply andb_true_iff in E. destruct E as [E1 E2].
  rewrite (H c E1), (IH E2). reflexivity.
Qed.

Lemma str_nonneg_digits (n : Z) :
  0 <= n -> all_chars is_digit (str_nonneg n) = true.
Proof.
  revert n. apply (decimal_ind (fun n => all_chars is_digit (str_nonneg n) = true)).
  - intros n H. rewrite str_nonneg_small by exact H. cbn [all_chars].
    rewrite digit_char_is_digit by exact H. reflexivity.
  - intros n H IH. rewrite str_nonneg_step by exact H.
    rewrite all_chars_app, IH. cbn [all_chars andb].
    rewrite digit_char_is_digit by (apply Z.mod_pos_bound; lia). reflexivity.
Qed.

Lemma str_nonneg_cons (n : Z) :
  0 <= n -> exists c s, str_nonneg n = String c s /\ is_digit c = true.
Proof.
  intros H. pose proof (str_nonneg_digits n H) as D.
  destruct (Z_lt_le_dec n 10) as [L|L].
  - rewrite str_nonneg_small in * by lia. cbn [all_chars] in D.
    apply andb_true_iff in D. destruct D as [D _]. eauto.
  - rewrite str_nonneg_step in * by exact L.
    destruct (str_nonneg (n / 10)) as [|c s] eqn:E.
    + change ("" +:+ String (digit_char (n mod 10)) "")
        with (String (digit_char (n mod 10)) "") in *.
      cbn [all_chars] in D. apply andb_true_iff in D. destruct D as [D _].
      exists (digit_char (n mod 10)), EmptyString. split; [reflexivity|exact D].
    + rewrite PyStringFacts.app_cons in *. cbn [all_chars] in D.
      apply andb_true_iff in D. destruct D as [D _]. eauto.
Qed.

Lemma parse_digits_app (acc : Z) (s : string) (d : Z) :
  0 <= d < 10 ->
  parse_digits acc (s +:+ String (digit_char d) "")
  = option_map (fun v => 10 * v + d) (parse_digits acc s).
Proof.
  intros H. revert acc. induction s as [|c s IH]; intros acc.
  - change ("" +:+ String (digit_char d) "") with (String (digit_char d) "").
    cbn [parse_digits option_map]. rewrite digit_char_value by exact H. reflexivity.
  - rewrite PyStringFacts.app_cons. cbn [parse_digits].
    destruct (digit_value c); [apply IH|reflexivity].
Qed.

(** The numeral of a non-negative number reads back as the number. *)
Lemma parse_str_nonneg (n : Z) :
  0 <= n -> parse_digits 0 (str_nonneg n) = Some n.
Proof.
  revert n. apply (decimal_ind (fun n => parse_digits 0 (str_nonneg n) = Some n)).
  - intros n H. rewrite str_nonneg_small by exact H. cbn [parse_digits].
    rewrite digit_char_value by exact H. f_equal.
  - intros n H IH. rewrite str_nonneg_step by exact H.
    rewrite parse_digits_app by (apply Z.mod_pos_bound; lia).
    rewrite IH. cbn [option_map]. f_equal. pose proof (Z.div_mod n 10). lia.
Qed.

Lemma is_digit_not_minus (c : ascii) : is_digit c = true -> c <> "-"%char.
Proof. intros H ->. discriminate H. Qed.

(** [str] and [int] round-trip on every integer. *)
Lemma parse_int_str (z : Z) : parse_int (str z) = Some z.
Proof.
  unfold str. destruct (z <? 0) eqn:E.
  - apply Z.ltb_lt in E.
    destruct (str_nonneg_cons (- z)) as (c & s & Hs & Hc); [lia|].
    pose proof (parse_str_nonneg (- z)) as R. rewrite Hs in *.
    change ("-" +:+ String c s) with (String "-" (String c s)).
    unfold parse_int. rewrite R by lia. cbn [option_map]. f_equal. lia.
  - apply Z.ltb_ge in E.
    destruct (str_nonneg_cons z E) as (c & s & Hs & Hc).
    pose proof (parse_str_nonneg z E) as R. rewrite Hs in *.
    pose proof (is_digit_not_minus c Hc) as N.
    unfold parse_int.
    destruct c as [[] [] [] [] [] [] [] []]; try exact R.
    contradiction N. reflexivity.
Qed.

Lemma str_numeral (z : Z) : all_chars numeral_char (str z) = true.
Proof.
  assert (W : forall c, is_digit c = true -> numeral_char c = true).
  { intros c H. unfold numeral_char. rewrite H. reflexivity. }
  unfold str. destruct (z <? 0) eqn:E.
  - apply Z.ltb_lt in E.
    change ("-" +:+ str_nonneg (- z)) with (String "-" (str_nonneg (- z))).
    cbn [all_chars]. change (numeral_char "-") with true. cbn [andb].
    apply (all_chars_weaken _ _ _ W). apply str_nonneg_digits. lia.
  - apply Z.ltb_ge in E. apply (all_chars_weaken _ _ _ W).
    apply str_nonneg_digits. exact E.
Qed.

Lemma str_cons (z : Z) : exists c s, str z = String c s /\ numeral_char c = true.
Proof.
  pose proof (str_numeral z) as H.
  unfold str in *. destruct (z <? 0) eqn:E.
  - exists "-"%char, (str_nonneg (- z)). split; reflexivity.
  - apply Z.ltb_ge in E.
    destruct (str_nonneg_cons z E) as (c & s & -> & Hc).
    exists c, s. split; [reflexivity|]. unfold numeral_char. rewrite Hc. reflexivity.
Qed.

End PyIntFacts.

(** ** The membership predicate of make_criteria *)

Module CriteriaFacts.

Lemma split_no_sep (sep : ascii) (s : string) :
  PyString.contains_char sep s = false -> PyString.split sep s = [s].
Proof.
  induction s as [|c s IH]; [reflexivity|]. cbn [PyString.contains_char PyString.split].
  intros H. apply orb_false_elim in H. destruct H as [H1 H2].
  rewrite H1, (IH H2). reflexivity.
Qed.

Lemma split_app_sep (sep : ascii) (s rest : string) :
  PyString.contains_char sep s = false ->
  PyString.split sep (s +:+ String sep rest) = s :: PyString.split sep rest.
Proof.
  induction s as [|c s IH].
  - intros _. change ("" +:+ String sep rest) with (String sep rest).
    cbn [PyString.split]. rewrite Ascii.eqb_refl. reflexivity.
  - cbn [PyString.contains_char]. intros H.
    apply orb_false_elim in H. destruct H as [H1 H2].
    rewrite PyStringFacts.app_cons. cbn [PyString.split].
    rewrite H1, (IH H2). reflexivity.
Qed.

(** Splitting what was joined gives the items back, when none of them holds
    the separator. *)
Lemma split_join (sep : ascii) (items : list string) :
  items <> [] ->
  Forall (fun s => PyString.contains_char sep s = false) items ->
  PyString.split sep (PyString.join (String sep "") items) = items.
Proof.
  intros Hne H. induction H as [|x rest Hx Hrest IH]; [contradiction|].
  destruct rest as [|y rest].
  - cbn [PyString.join]. apply split_no_sep. exact Hx.
  - change (PyString.join (String sep "") (x :: y :: rest))
      with (x +:+ String sep "" +:+ PyString.join (String sep "") (y :: rest)).
    change (String sep "" +:+ PyString.join (String sep "") (y :: rest))
      with (String sep (PyString.join (String sep "") (y :: rest))).
    rewrite split_app_sep by exact Hx. f_equal. apply IH. discriminate.
Qed.

Lemma strip_prefix_app (p s : string) : strip_prefix p (p +:+ s) = Some s.
Proof.
  induction p as [|c p IH]; [reflexivity|].
  rewrite PyStringFacts.app_cons. cbn [strip_prefix].
  rewrite Ascii.eqb_refl. exact IH.
Qed.

Lemma strip_last_app (c : ascii) (s : string) :
  strip_last c (s +:+ String c "") = Some s.
Proof.
  induction s as [|a s IH].
  - change ("" +:+ String c "") with (String c ""). cbn [strip_last].
    rewrite Ascii.eqb_refl. reflexivity.
  - rewrite PyStringFacts.app_cons.
    destruct (s +:+ String c "") as [|b u] eqn:E.
    + destruct s; discriminate E.
    + cbn [strip_last]. cbn [strip_last] in IH. rewrite IH. reflexivity.
Qed.

Lemma membership_items_predicate (column body : string) :
  membership_items column (column +:+ " in (" +:+ body +:+ ")")
  = Some (PyString.split "," body).
Proof.
  unfold membership_items.
  rewrite <- (PyStringFacts.app_assoc column " in (").
  rewrite strip_prefix_app, strip_last_app. reflexivity.
Qed.

Lemma numeral_no_comma (s : string) :
  all_chars numeral_char s = true -> PyString.contains_char "," s = false.
Proof.
  induction s as [|c s IH]; [reflexivity|].
  cbn [all_chars PyString.contains_char]. intros H.
  apply andb_true_iff in H. destruct H as [H1 H2]. rewrite (IH H2), orb_false_r.
  destruct (Ascii.eqb_spec c ",") as [->|]; [discriminate H1|reflexivity].
Qed.

End CriteriaFacts.

(** C8 fails on the code for the empty list: the call returns a predicate
    with nothing between the parentheses and raises nothing. *)
Lemma make_criteria_empty_list_accepted :
  make_criteria "id" (PyList []) = Ok "id in ()"%string
  /\ ~ (exists e, make_criteria "id" (PyList []) = Raise e).
Proof. split; [reflexivity|]. intros [e H]. discriminate H. Qed.

(** C8, as the code has it. For every list of integers [make_criteria]
    returns [column in (v1,v2,...)]: for a non-empty list the items between
    the parentheses, separated by commas, are the numerals of the listed
    values, each once and in the order given, and they read back as the
    values; for the empty list the predicate is [column in ()]. *)
Theorem make_criteria_int_list (column : string) (l : list Z) :
  let predicate := column +:+ " in (" +:+ PyString.join "," (map PyInt.str l) +:+ ")" in
  make_criteria column (PyList (map AInt l)) = Ok predicate
  /\ (l <> [] ->
      membership_items column predicate = Some (map PyInt.str l)
      /\ map parse_int (map PyInt.str l) = map Some l)
  /\ (l = [] -> predicate = column +:+ " in ()").
Proof.
  intros predicate. split; [|split].
  - rewrite make_criteria_list, map_map. reflexivity.
  - intros Hne. split.
    + unfold predicate. rewrite CriteriaFacts.membership_items_predicate.
      f_equal. apply (CriteriaFacts.split_join ",").
      * destruct l; [contradiction|discriminate].
      * apply Forall_forall. intros s Hs. apply list_elem_of_In, in_map_iff in Hs.
        destruct Hs as (z & <- & _).
        apply CriteriaFacts.numeral_no_comma, PyIntFacts.str_numeral.
    + rewrite map_map. apply map_ext. intros z. apply PyIntFacts.parse_int_str.
  - intros ->. reflexivity.
Qed.

Lemma make_criteria_int_list_witness :
  membership_items "id" "id in (3,-1,3)" = Some ["3"; "-1"; "3"]%string
  /\ map parse_int ["3"; "-1"; "3"]%string = [Some 3; Some (-1); Some 3].
Proof.
  apply (make_criteria_int_list "id" [3; -1; 3]). discriminate.
Defined.

(** ** File names *)

Module IdFacts.
Import PyInt PyIntFacts.

Ltac div_lia := Z.div_mod_to_equations; lia.

Lemma str_nonneg_2 (n : Z) :
  10 <= n < 100 ->
  str_nonneg n = String (digit_char (n / 10)) (String (digit_char (n mod 10)) "").
Proof.
  intros H. rewrite str_nonneg_step by lia.
  rewrite str_nonneg_small by div_lia. reflexivity.
Qed.

Lemma str_nonneg_3 (n : Z) :
  100 <= n < 1000 ->
  str_nonneg n
  = String (digit_char (n / 100))
      (String (digit_char (n / 10 mod 10)) (String (digit_char (n mod 10)) "")).
Proof.
  intros H. rewrite str_nonneg_step by lia.
  rewrite str_nonneg_2 by div_lia.
  replace (n / 10 / 10) with (n / 100) by div_lia. reflexivity.
Qed.

Lemma str_nonneg_4 (n : Z) :
  1000 <= n < 10000 ->
  str_nonneg n
  = String (digit_char (n / 1000))
      (String (digit_char (n / 100 mod 10))
         (String (digit_char (n / 10 mod 10)) (String (digit_char (n mod 10)) ""))).
Proof.
  intros H. rewrite str_nonneg_step by lia.
  rewrite str_nonneg_3 by div_lia.
  replace (n / 10 / 1000) with (n / 10000) by div_lia.
  replace (n / 10 / 100) with (n / 1000) by div_lia.
  replace (n / 10 / 10 mod 10) with (n / 100 mod 10) by div_lia. reflexivity.
Qed.

Lemma str_nonneg_5 (n : Z) :
  10000 <= n < 100000 ->
  str_nonneg n
  = String (digit_char (n / 10000))
      (String (digit_char (n / 1000 mod 10))
         (String (digit_char (n / 100 mod 10))
            (String (digit_char (n / 10 mod 10)) (String (digit_char (n mod 10)) "")))).
Proof.
  intros H. rewrite str_nonneg_step by lia.
  rewrite str_nonneg_4 by div_lia.
  replace (n / 10 / 1000) with (n / 10000) by div_lia.
  replace (n / 10 / 100 mod 10) with (n / 1000 mod 10) by div_lia.
  replace (n / 10 / 10 mod 10) with (n / 100 mod 10) by div_lia. reflexivity.
Qed.

Ltac zero_digit e := replace e with 0 by div_lia.

(** An id from 0 to 99999 is printed as its five digits. *)
Lemma format_05d_five (n : Z) : 0 <= n < 100000 -> format_05d n = five_digits n.
Proof.
  intros H. unfold format_05d.
  destruct (n <? 0) eqn:E; [apply Z.ltb_lt in E; lia|]. clear E.
  unfold five_digits.
  destruct (Z_lt_le_dec n 10); [|destruct (Z_lt_le_dec n 100);
    [|destruct (Z_lt_le_dec n 1000); [|destruct (Z_lt_le_dec n 10000)]]].
  - rewrite str_nonneg_small by lia.
    zero_digit (n / 10000 mod 10). zero_digit (n / 1000 mod 10).
    zero_digit (n / 100 mod 10). zero_digit (n / 10 mod 10).
    replace (n mod 10) with n by div_lia. reflexivity.
  - rewrite str_nonneg_2 by lia.
    zero_digit (n / 10000 mod 10). zero_digit (n / 1000 mod 10).
    zero_digit (n / 100 mod 10).
    replace (n / 10 mod 10) with (n / 10) by div_lia. reflexivity.
  - rewrite str_nonneg_3 by lia.
    zero_digit (n / 10000 mod 10). zero_digit (n / 1000 mod 10).
    replace (n / 100 mod 10) with (n / 100) by div_lia. reflexivity.
  - rewrite str_nonneg_4 by lia.
    zero_digit (n / 10000 mod 10).
    replace (n / 1000 mod 10) with (n / 1000) by div_lia. reflexivity.
  - rewrite str_nonneg_5 by lia.
    replace (n / 10000 mod 10) with (n / 10000) by div_lia. reflexivity.
Qed.

Lemma compare_digit (x y : Z) (s t : string) :
  0 <= x < 10 -> 0 <= y < 10 ->
  PyString.compare (String (digit_char x) s) (String (digit_char y) t)
  = match x ?= y with Eq => PyString.compare s t | o => o end.
Proof.
  intros Hx Hy. cbn [PyString.compare].
  rewrite !digit_char_code by assumption.
  rewrite Z.add_compare_mono_l. reflexivity.
Qed.

(** Five-digit numerals are ordered as the numbers; what follows decides
    between equal ones. *)
Lemma compare_five_digits (a b : Z) (s t : string) :
  0 <= a < 100000 -> 0 <= b < 100000 ->
  PyString.compare (five_digits a +:+ s) (five_digits b +:+ t)
  = match a ?= b with Eq => PyString.compare s t | o => o end.
Proof.
  intros Ha Hb. unfold five_digits.
  rewrite !PyStringFacts.app_cons.
  assert (M : forall m, 0 <= m mod 10 < 10) by (intros m; apply Z.mod_pos_bound; lia).
  rewrite !compare_digit by apply M.
  assert (L : a < b -> (a ?= b) = Lt) by (intros; apply Z.compare_lt_iff; lia).
  assert (G : b < a -> (a ?= b) = Gt) by (intros; apply Z.compare_gt_iff; lia).
  destruct (Z.compare_spec (a / 10000 mod 10) (b / 10000 mod 10));
    [|rewrite L by div_lia; reflexivity|rewrite G by div_lia; reflexivity].
  destruct (Z.compare_spec (a / 1000 mod 10) (b / 1000 mod 10));
    [|rewrite L by div_lia; reflexivity|rewrite G by div_lia; reflexivity].
  destruct (Z.compare_spec (a / 100 mod 10) (b / 100 mod 10));
    [|rewrite L by div_lia; reflexivity|rewrite G by div_lia; reflexivity].
  destruct (Z.compare_spec (a / 10 mod 10) (b / 10 mod 10));
    [|rewrite L by div_lia; reflexivity|rewrite G by div_lia; reflexivity].
  destruct (Z.compare_spec (a mod 10) (b mod 10));
    [|rewrite L by div_lia; reflexivity|rewrite G by div_lia; reflexivity].
  replace b with a by div_lia. rewrite Z.compare_refl. reflexivity.
Qed.

Lemma str_nonneg_length_small (n : Z) :
  0 <= n -> String.length (str_nonneg n) = 1%nat -> n < 10.
Proof.
  intros H L. destruct (Z_lt_le_dec n 10) as [|G]; [assumption|].
  rewrite str_nonneg_step in L by exact G.
  destruct (str_nonneg_cons (n / 10)) as (c & s & E & _); [apply Z.div_pos; lia|].
  rewrite E, PyStringFacts.app_length in L. simpl in L. lia.
Qed.

(** Numerals of the same length are ordered as the numbers. *)
Lemma compare_str_nonneg (a : Z) :
  0 <= a -> forall b s t, 0 <= b ->
  String.length (str_nonneg a) = String.length (str_nonneg b) ->
  PyString.compare (str_nonneg a +:+ s) (str_nonneg b +:+ t)
  = match a ?= b with Eq => PyString.compare s t | o => o end.
Proof.
  revert a. apply (decimal_ind (fun a => forall b s t, 0 <= b ->
    String.length (str_nonneg a) = String.length (str_nonneg b) ->
    PyString.compare (str_nonneg a +:+ s) (str_nonneg b +:+ t)
    = match a ?= b with Eq => PyString.compare s t | o => o end)).
  - intros a Ha b s t Hb L.
    rewrite (str_nonneg_small a) in L by exact Ha. simpl in L.
    assert (b < 10) by (apply str_nonneg_length_small; [exact Hb|symmetry; exact L]).
    rewrite !str_nonneg_small by lia. rewrite !PyStringFacts.app_cons.
    change ("" +:+ ?x) with x. apply compare_digit; lia.
  - intros a Ha IH b s t Hb L.
    assert (Hb10 : 10 <= b).
    { destruct (Z_lt_le_dec b 10) as [l|]; [|assumption]. exfalso.
      rewrite (str_nonneg_small b) in L by lia. simpl in L.
      pose proof (str_nonneg_length_small a ltac:(lia) L). lia. }
    rewrite (str_nonneg_step a), (str_nonneg_step b) in * by assumption.
    rewrite !PyStringFacts.app_length in L. simpl in L.
    rewrite !PyStringFacts.app_assoc, !PyStringFacts.app_cons.
    change ("" +:+ ?x) with x.
    rewrite IH by (try (apply Z.div_pos; lia); lia).
    assert (M : forall m, 0 <= m mod 10 < 10) by (intros m; apply Z.mod_pos_bound; lia).
    rewrite compare_digit by apply M.
    assert (Lt_ : a < b -> (a ?= b) = Lt) by (intros; apply Z.compare_lt_iff; lia).
    assert (Gt_ : b < a -> (a ?= b) = Gt) by (intros; apply Z.compare_gt_iff; lia).
    destruct (Z.compare_spec (a / 10) (b / 10));
      [|rewrite Lt_ by div_lia; reflexivity|rewrite Gt_ by div_lia; reflexivity].
    destruct (Z.compare_spec (a mod 10) (b mod 10));
      [|rewrite Lt_ by div_lia; reflexivity|rewrite Gt_ by div_lia; reflexivity].
    replace b with a by div_lia. rewrite Z.compare_refl. reflexivity.
Qed.
End IdFacts.

Module PathFacts.
Import PyInt PyIntFacts.

Lemma join_relative (a b : string) :
  PyString.startswith "/" b = false -> PosixPath.join a b = dir_prefix a +:+ b.
Proof.
  intros H. unfold PosixPath.join, dir_prefix. rewrite H.
  destruct (String.eqb a "" || PyString.endswith_char "/" a); [reflexivity|].
  rewrite PyStringFacts.app_assoc. reflexivity.
Qed.

Lemma numeral_not_slash (c : ascii) (s : string) :
  numeral_char c = true -> PyString.startswith "/" (String c s) = false.
Proof.
  intros H. cbn [PyString.startswith].
  destruct (Ascii.eqb_spec "/" c) as [<-|]; [discriminate H|reflexivity].
Qed.

Lemma all_digits_zeros (k : nat) : all_chars is_digit (zeros k) = true.
Proof. induction k as [|k IH]; [reflexivity|]. cbn [zeros all_chars]. rewrite IH. reflexivity. Qed.

Lemma digit_numeral (c : ascii) : is_digit c = true -> numeral_char c = true.
Proof. intros H. unfold numeral_char. rewrite H. reflexivity. Qed.

Lemma format_05d_numeral (n : Z) : all_chars numeral_char (format_05d n) = true.
Proof.
  unfold format_05d, zfill. destruct (n <? 0) eqn:E.
  - apply Z.ltb_lt in E.
    rewrite PyStringFacts.app_cons. cbn [all_chars].
    change (numeral_char "-") with true. cbn [andb].
    change ("" +:+ ?x) with x.
    apply (all_chars_weaken _ _ _ digit_numeral).
    rewrite all_chars_app, all_digits_zeros, str_nonneg_digits by lia. reflexivity.
  - apply Z.ltb_ge in E. apply (all_chars_weaken _ _ _ digit_numeral).
    rewrite all_chars_app, all_digits_zeros, str_nonneg_digits by lia. reflexivity.
Qed.

Lemma format_05d_cons (n : Z) :
  exists c s, format_05d n = String c s /\ numeral_char c = true.
Proof.
  pose proof (format_05d_numeral n) as A.
  destruct (format_05d n) as [|c s] eqn:E.
  - exfalso. unfold format_05d, zfill in E. destruct (n <? 0) eqn:L.
    + discriminate E.
    + apply Z.ltb_ge in L. destruct (str_nonneg_cons n L) as (c & s & Hs & _).
      rewrite Hs in E. apply (f_equal String.length) in E.
      rewrite PyStringFacts.app_length in E. simpl in E. lia.
  - cbn [all_chars] in A. apply andb_true_iff in A. destruct A as [A _]. eauto.
Qed.

Lemma frame_name_relative (id t : Z) :
  PyString.startswith "/" (frame_name id t) = false
  /\ PyString.startswith "/" (frame_name_raw id t) = false.
Proof.
  unfold frame_name, frame_name_raw.
  destruct (format_05d_cons id) as (c & s & -> & Hc).
  rewrite !PyStringFacts.app_cons. split; apply numeral_not_slash; exact Hc.
Qed.

End PathFacts.

Section FileNames.
Context `{P : Platform}.

(** Both paths of a frame are the snapshot directory followed by the name. *)
Lemma file_name_split (self : imager) (id t : Z) :
  file_name self id t
  = dir_prefix (PosixPath.join (experiment_folder self) "IMG_SNAPSHOTS")
    +:+ frame_name id t
  /\ file_name_raw self id t
     = dir_prefix (PosixPath.join (experiment_folder self) "IMG_SNAPSHOTS")
       +:+ frame_name_raw id t.
Proof.
  unfold file_name, file_name_raw, PosixPath.join3.
  destruct (PathFacts.frame_name_relative id t) as [H1 H2].
  rewrite (PathFacts.join_relative _ (frame_name id t)) by exact H1.
  rewrite (PathFacts.join_relative _ (frame_name_raw id t)) by exact H2.
  split; reflexivity.
Qed.

Lemma compare_frame_names (id1 t1 id2 t2 : Z) (m1 m2 : string) :
  0 <= id1 <= 99999 -> 0 <= id2 <= 99999 ->
  PyString.compare (PyInt.format_05d id1 +:+ "_" +:+ PyInt.str t1 +:+ m1)
                   (PyInt.format_05d id2 +:+ "_" +:+ PyInt.str t2 +:+ m2)
  = match id1 ?= id2 with
    | Eq => PyString.compare (PyInt.str t1 +:+ m1) (PyInt.str t2 +:+ m2)
    | o => o
    end.
Proof.
  intros H1 H2. rewrite !IdFacts.format_05d_five by lia.
  rewrite IdFacts.compare_five_digits by lia.
  destruct (id1 ?= id2); reflexivity.
Qed.

Lemma compare_times (t1 t2 : Z) (m : string) :
  0 <= t1 -> 0 <= t2 ->
  String.length (PyInt.str t1) = String.length (PyInt.str t2) ->
  PyString.compare (PyInt.str t1 +:+ m) (PyInt.str t2 +:+ m) = (t1 ?= t2).
Proof.
  unfold PyInt.str. intros H1 H2.
  destruct (Z.ltb_spec t1 0); [lia|]. destruct (Z.ltb_spec t2 0); [lia|].
  intros L. rewrite IdFacts.compare_str_nonneg by assumption.
  rewrite PyStringFacts.compare_refl. destruct (t1 ?= t2); reflexivity.
Qed.

(** C7, as the code has it. Only the id is printed with a fixed width.
    For two records with ids in 0..99999 the file names, raw or labeled,
    compare as the records do (by id, then by time offset) when, for equal
    ids, the two offsets are non-negative and have the same number of
    digits; for different ids the names compare as the ids, whatever the
    offsets and the markers. *)
Theorem file_names_sort (self : imager) (id1 t1 id2 t2 : Z) :
  0 <= id1 <= 99999 -> 0 <= id2 <= 99999 ->
  (id1 = id2 ->
   0 <= t1 /\ 0 <= t2
   /\ String.length (PyInt.str t1) = String.length (PyInt.str t2)) ->
  PyString.compare (file_name self id1 t1) (file_name self id2 t2)
  = chronological id1 t1 id2 t2
  /\ PyString.compare (file_name_raw self id1 t1) (file_name_raw self id2 t2)
     = chronological id1 t1 id2 t2
  /\ (id1 <> id2 ->
      PyString.compare (file_name self id1 t1) (file_name_raw self id2 t2)
      = (id1 ?= id2)
      /\ PyString.compare (file_name_raw self id1 t1) (file_name self id2 t2)
         = (id1 ?= id2)).
Proof.
  intros H1 H2 Ht.
  destruct (file_name_split self id1 t1) as [-> ->].
  destruct (file_name_split self id2 t2) as [-> ->].
  rewrite !PyStringFacts.compare_app_l.
  unfold frame_name, frame_name_raw, chronological.
  rewrite !compare_frame_names by assumption.
  destruct (Z.compare_spec id1 id2) as [E|L|G].
  - destruct (Ht E) as (T1 & T2 & L).
    rewrite !compare_times by assumption.
    split; [reflexivity|]. split; [reflexivity|]. intros N. contradiction.
  - repeat split; reflexivity.
  - repeat split; reflexivity.
Qed.

End FileNames.

Lemma file_names_sort_witness :
  PyString.compare (file_name (sample_self no_tool) 3 2000)
                   (file_name (sample_self no_tool) 3 9999)
  = chronological 3 2000 3 9999
  /\ PyString.compare (file_name_raw (sample_self no_tool) 3 2000)
                      (file_name_raw (sample_self no_tool) 3 9999)
     = chronological 3 2000 3 9999
  /\ (3 <> 3 ->
      PyString.compare (file_name (sample_self no_tool) 3 2000)
                       (file_name_raw (sample_self no_tool) 3 9999)
      = (3 ?= 3)
      /\ PyString.compare (file_name_raw (sample_self no_tool) 3 2000)
                          (file_name (sample_self no_tool) 3 9999)
         = (3 ?= 3)).
Proof.
  apply (file_names_sort (P := no_tool) (sample_self no_tool) 3 2000 3 9999).
  - lia.
  - lia.
  - intros _. split; [lia|]. split; [lia|reflexivity].
Defined.

(** The names of the specification's example, in sorted order. *)
Example names_1_2_10 :
  map (fun r => frame_name (fst r) (snd r)) [(1, 500); (2, 100); (10, 9999)]
  = ["00001_500.jpg"; "00002_100.jpg"; "00010_9999.jpg"]%string.
Proof. reflexivity. Qed.

(** C7 fails on the code: the time offset is printed without padding, so
    frame [(1, 1000)] sorts before frame [(1, 500)]. *)
Lemma names_sort_chronologically_fails :
  ~ names_sort_chronologically /\ ~ names_sort_by_time.
Proof.
  split; intros H;
    specialize (H no_tool (sample_self no_tool) 1 1000 1 500);
    vm_compute in H; discriminate H.
Qed.

(** An id of six digits sorts before one of five. *)
Example names_wide_id :
  PyString.compare (frame_name 100000 0) (frame_name 99999 0) = Lt.
Proof. reflexivity. Qed.

(** ** The labeled path annotate_image derives from the raw path *)

Module ReplaceFacts.
Import PyInt PyIntFacts.

Local Abbreviation unraw := (PyString.replace_from O "_raw" "").

Lemma unraw_cons (c : ascii) (s : string) :
  PyString.startswith "_raw" (String c s) = false ->
  unraw (String c s) = String c (unraw s).
Proof. intros H. cbn [PyString.replace_from]. rewrite H. reflexivity. Qed.

Lemma startswith_marker_app (x : ascii) (s : string) (c : ascii) (rest : string) :
  PyString.startswith "_raw" (String x s) = false ->
  safe_next c = true ->
  PyString.startswith "_raw" (String x s +:+ String c rest) = false.
Proof.
  unfold safe_next. intros H Hc.
  apply andb_true_iff in Hc. destruct Hc as [Hc Hw].
  apply andb_true_iff in Hc. destruct Hc as [Hr Ha].
  apply negb_true_iff in Hr, Ha, Hw.
  destruct s as [|y [|z [|u s]]];
    rewrite ?PyStringFacts.app_cons;
    change ("" +:+ String c rest) with (String c rest);
    cbn [PyString.startswith] in *;
    destruct (Ascii.eqb "_" x); try reflexivity;
    rewrite ?Hr; try reflexivity;
    destruct (Ascii.eqb "r" y); try reflexivity;
    rewrite ?Ha; try reflexivity;
    destruct (Ascii.eqb "a" z); try reflexivity;
    rewrite ?Hw; try reflexivity;
    destruct (Ascii.eqb "w" u); try reflexivity; discriminate H.
Qed.

(** A prefix without the marker is copied, when the next character cannot
    complete a marker begun in the prefix. *)
Lemma unraw_clean_app (s : string) (c : ascii) (rest : string) :
  contains "_raw" s = false ->
  safe_next c = true ->
  unraw (s +:+ String c rest) = s +:+ unraw (String c rest).
Proof.
  intros H Hc. induction s as [|x s IH]; [reflexivity|].
  cbn [contains] in H. apply orb_false_elim in H. destruct H as [H1 H2].
  pose proof (startswith_marker_app x s c rest H1 Hc) as E.
  rewrite PyStringFacts.app_cons in *.
  rewrite unraw_cons by exact E. rewrite (IH H2). reflexivity.
Qed.

Lemma numeral_not_marker (c : ascii) (s : string) :
  numeral_char c = true -> PyString.startswith "_raw" (String c s) = false.
Proof.
  intros H. cbn [PyString.startswith].
  destruct (Ascii.eqb_spec "_" c) as [<-|]; [discriminate H|reflexivity].
Qed.

Lemma unraw_numeral_app (s rest : string) :
  all_chars numeral_char s = true -> unraw (s +:+ rest) = s +:+ unraw rest.
Proof.
  induction s as [|c s IH]; [reflexivity|]. cbn [all_chars]. intros H.
  apply andb_true_iff in H. destruct H as [H1 H2].
  rewrite !PyStringFacts.app_cons.
  rewrite unraw_cons by (apply numeral_not_marker; exact H1).
  rewrite (IH H2). reflexivity.
Qed.

Lemma unraw_underscore_numeral (c : ascii) (s : string) :
  numeral_char c = true ->
  unraw (String "_" (String c s)) = String "_" (unraw (String c s)).
Proof.
  intros H. apply unraw_cons. cbn [PyString.startswith].
  change (Ascii.eqb "_" "_") with true. cbn iota.
  destruct (Ascii.eqb_spec "r" c) as [<-|]; [discriminate H|reflexivity].
Qed.

(** The raw name loses its marker, and nothing else. *)
Lemma unraw_frame_name (id t : Z) :
  unraw (frame_name_raw id t) = frame_name id t.
Proof.
  unfold frame_name_raw, frame_name.
  rewrite unraw_numeral_app by apply PathFacts.format_05d_numeral.
  f_equal. change ("_" +:+ ?x) with (String "_" x).
  pose proof (str_numeral t) as A.
  destruct (str_cons t) as (c & s & E & Hc). rewrite E in *.
  rewrite !PyStringFacts.app_cons.
  rewrite unraw_underscore_numeral by exact Hc. f_equal.
  rewrite <- !PyStringFacts.app_cons.
  rewrite unraw_numeral_app by exact A. reflexivity.
Qed.

Lemma unraw_snapshots (rest : string) :
  unraw ("IMG_SNAPSHOTS/" +:+ rest) = "IMG_SNAPSHOTS/" +:+ unraw rest.
Proof.
  change ("IMG_SNAPSHOTS/" +:+ rest)
    with (String "I" (String "M" (String "G" (String "_" ("SNAPSHOTS/" +:+ rest))))).
  rewrite 4 unraw_cons by reflexivity.
  change ("SNAPSHOTS/" +:+ rest)
    with (String "S" (String "N" (String "A" (String "P" (String "S"
           (String "H" (String "O" (String "T" (String "S" (String "/" rest)))))))))).
  destruct rest as [|c rest].
  - reflexivity.
  - rewrite 10 unraw_cons by reflexivity. reflexivity.
Qed.

Lemma endswith_char_app_cons (c : ascii) (s : string) (a : ascii) (t : string) :
  PyString.endswith_char c (s +:+ String a t) = PyString.endswith_char c (String a t).
Proof.
  induction s as [|x s IH]; [reflexivity|].
  rewrite PyStringFacts.app_cons.
  destruct (s +:+ String a t) as [|y u] eqn:E.
  - destruct s; discriminate E.
  - cbn [PyString.endswith_char]. cbn [PyString.endswith_char] in IH. exact IH.
Qed.

(** The snapshot directory of a folder, as [os.path.join] writes it. *)
Lemma snapshot_prefix (folder : string) :
  dir_prefix (PosixPath.join folder "IMG_SNAPSHOTS")
  = dir_prefix folder +:+ "IMG_SNAPSHOTS/".
Proof.
  rewrite PathFacts.join_relative by reflexivity.
  unfold dir_prefix at 1.
  replace (String.eqb (dir_prefix folder +:+ "IMG_SNAPSHOTS") "") with false.
  - rewrite endswith_char_app_cons.
    change (PyString.endswith_char "/" "IMG_SNAPSHOTS") with false.
    cbn [orb]. rewrite PyStringFacts.app_assoc. reflexivity.
  - symmetry. apply String.eqb_neq. intros E.
    apply (f_equal String.length) in E.
    rewrite PyStringFacts.app_length in E. simpl in E. lia.
Qed.

Lemma unraw_dir_prefix (folder rest : string) :
  contains "_raw" folder = false ->
  unraw (dir_prefix folder +:+ "IMG_SNAPSHOTS/" +:+ rest)
  = dir_prefix folder +:+ "IMG_SNAPSHOTS/" +:+ unraw rest.
Proof.
  intros H. unfold dir_prefix.
  destruct (String.eqb folder "" || PyString.endswith_char "/" folder).
  - change ("IMG_SNAPSHOTS/" +:+ rest)
      with (String "I" ("MG_SNAPSHOTS/" +:+ rest)).
    rewrite unraw_clean_app by (exact H || reflexivity).
    change (String "I" ("MG_SNAPSHOTS/" +:+ rest)) with ("IMG_SNAPSHOTS/" +:+ rest).
    rewrite unraw_snapshots. reflexivity.
  - rewrite !PyStringFacts.app_assoc.
    change ("/" +:+ "IMG_SNAPSHOTS/" +:+ rest)
      with (String "/" ("IMG_SNAPSHOTS/" +:+ rest)).
    rewrite unraw_clean_app by (exact H || reflexivity).
    rewrite unraw_cons by reflexivity.
    rewrite unraw_snapshots. reflexivity.
Qed.

End ReplaceFacts.

Section AtMostOne.
Context `{P : Platform} `{C : @Clock P}.

(** In a folder whose path does not hold the marker itself, the output
    path of [annotate_image] on the raw path of [(id, t)] is the labeled
    path [save_frame] tests. *)
Lemma replace_file_name_raw (self : imager) (id t : Z) :
  contains "_raw" (experiment_folder self) = false ->
  PyString.replace "_raw" "" (file_name_raw self id t) = file_name self id t.
Proof.
  intros H. destruct (file_name_split self id t) as [-> ->].
  rewrite ReplaceFacts.snapshot_prefix. unfold PyString.replace.
  rewrite !PyStringFacts.app_assoc.
  rewrite ReplaceFacts.unraw_dir_prefix by exact H.
  rewrite ReplaceFacts.unraw_frame_name. reflexivity.
Qed.

Lemma frame_names_differ (self : imager) (id t : Z) :
  file_name_raw self id t <> file_name self id t.
Proof.
  destruct (file_name_split self id t) as [-> ->].
  unfold frame_name, frame_name_raw. intros E.
  apply (f_equal String.length) in E.
  rewrite !PyStringFacts.app_length in E. simpl in E. lia.
Qed.

(** [save_frame] never makes the two files of a frame coexist. *)
Lemma save_frame_at_most_one (self : imager) (id t : Z) (blob : bytes) (w : world) :
  let w' := snd (save_frame self id t blob w) in
  path_exists (file_name_raw self id t) w' = true ->
  path_exists (file_name self id t) w' = true ->
  w' = w.
Proof.
  intros w' Hr Hl. subst w'.
  destruct (path_exists (file_name self id t) w
            || path_exists (file_name_raw self id t) w) eqn:E.
  - rewrite save_frame_present by exact E. reflexivity.
  - rewrite save_frame_absent in * by exact E. simpl in *.
    rewrite path_exists_insert in Hl.
    rewrite decide_False in Hl by apply frame_names_differ.
    apply orb_false_elim in E. destruct E as [E _].
    rewrite (path_exists_files _ _ w) in Hl by reflexivity. congruence.
Qed.

(** C5, as the code has it. In a folder whose path does not hold the
    marker, the step on the raw path of [(id, t)] looks for the labeled
    path of [(id, t)].  When the label can be computed and that file is not
    there beforehand, the raw file does not exist once the step has ended;
    when the label cannot be computed the step raises and changes nothing.
    So the step never makes the two files coexist: if both exist
    afterwards, both existed before.  When the labeled file is there
    beforehand, the step changes nothing, a raw file next to it included,
    and returns at once when the label can be computed. *)
Theorem annotate_image_at_most_one (self : imager) (id t time : Z) (w : world) :
  contains "_raw" (experiment_folder self) = false ->
  let r := annotate_image self (file_name_raw self id t, time) w in
  PyString.replace "_raw" "" (file_name_raw self id t) = file_name self id t
  /\ (forall label, timestamp_label time (t0 self) = Ok label ->
        (path_exists (file_name self id t) w = false ->
         path_exists (file_name_raw self id t) (snd r) = false)
        /\ (path_exists (file_name self id t) w = true -> r = (Ok tt, w)))
  /\ (forall e, timestamp_label time (t0 self) = Raise e -> r = (Raise e, w))
  /\ (path_exists (file_name self id t) w = true -> snd r = w)
  /\ (path_exists (file_name_raw self id t) (snd r) = true ->
      path_exists (file_name self id t) (snd r) = true ->
      path_exists (file_name_raw self id t) w = true
      /\ path_exists (file_name self id t) w = true).
Proof.
  intros H r. pose proof (replace_file_name_raw self id t H) as E.
  assert (G : forall label, timestamp_label time (t0 self) = Ok label ->
              path_exists (file_name self id t) w = false ->
              path_exists (file_name_raw self id t) (snd r) = false).
  { intros label L A. apply (annotate_image_raw_gone self _ time w label L).
    rewrite E. exact A. }
  assert (S : forall label, timestamp_label time (t0 self) = Ok label ->
              path_exists (file_name self id t) w = true -> r = (Ok tt, w)).
  { intros label L A. apply (annotate_image_skip self _ time w label L).
    rewrite E. exact A. }
  assert (R : forall e, timestamp_label time (t0 self) = Raise e -> r = (Raise e, w)).
  { intros e L. apply annotate_image_label_raises. exact L. }
  assert (K : path_exists (file_name self id t) w = true -> snd r = w).
  { intros A. apply annotate_image_skip_world. rewrite E. exact A. }
  split; [exact E|]. split; [intros label L; split; eauto|].
  split; [exact R|]. split; [exact K|].
  intros Hr Hl. destruct (path_exists (file_name self id t) w) eqn:A.
  - rewrite (K eq_refl) in Hr. split; [exact Hr|reflexivity].
  - destruct (timestamp_label time (t0 self)) as [label|e] eqn:L.
    + rewrite (G label eq_refl eq_refl) in Hr. discriminate Hr.
    + rewrite (R e eq_refl) in Hl. simpl in Hl. congruence.
Qed.

End AtMostOne.

(** C5 fails on the code: when both files of the sample frame exist, the
    step returns normally and both are still there. *)
Lemma annotated_at_most_one_fails : ~ annotated_at_most_one.
Proof.
  intros H.
  apply (H no_tool (sample_clock no_tool) (sample_self no_tool) 3 2000 2000 both_world);
    [reflexivity|].
  split; vm_compute; reflexivity.
Qed.

Lemma annotate_image_at_most_one_witness :
  let r := annotate_image (P := no_tool) (C := sample_clock no_tool)
             (sample_self no_tool) (sample_raw, 2000) both_world in
  PyString.replace "_raw" "" sample_raw = sample_labeled
  /\ (forall label,
        timestamp_label (Clock := sample_clock no_tool) 2000 (t0 (sample_self no_tool))
        = Ok label ->
        (path_exists sample_labeled both_world = false ->
         path_exists sample_raw (snd r) = false)
        /\ (path_exists sample_labeled both_world = true -> r = (Ok tt, both_world)))
  /\ (forall e,
        timestamp_label (Clock := sample_clock no_tool) 2000 (t0 (sample_self no_tool))
        = Raise e -> r = (Raise e, both_world))
  /\ (path_exists sample_labeled both_world = true -> snd r = both_world)
  /\ (path_exists sample_raw (snd r) = true ->
      path_exists sample_labeled (snd r) = true ->
      path_exists sample_raw both_world = true
      /\ path_exists sample_labeled both_world = true).
Proof.
  apply (annotate_image_at_most_one (P := no_tool) (C := sample_clock no_tool)
           (sample_self no_tool) 3 2000 2000 both_world).
  reflexivity.
Defined.

(** ** The primitives and the scenarios of the specification, evaluated *)

Example format_05d_3 : PyInt.format_05d 3 = "00003"%string.
Proof. reflexivity. Qed.

Example format_05d_negative : PyInt.format_05d (-1) = "-0001"%string.
Proof. reflexivity. Qed.

Example format_05d_wide : PyInt.format_05d 123456 = "123456"%string.
Proof. reflexivity. Qed.

Example str_large : PyInt.str 1700002000 = "1700002000"%string.
Proof. vm_compute. reflexivity. Qed.

Example replace_marker_everywhere :
  PyString.replace "_raw" "" "/a_raw/IMG_SNAPSHOTS/00001_5_raw.jpg"
  = "/a/IMG_SNAPSHOTS/00001_5.jpg"%string.
Proof. reflexivity. Qed.

Example split_name :
  PyString.split "_" "00001_5_raw.jpg" = ["00001"; "5"; "raw.jpg"]%string.
Proof. reflexivity. Qed.

Example dirname_basename :
  (PosixPath.dirname "/data/x.db", PosixPath.basename "/data/x.db",
   PosixPath.dirname "x.db", PosixPath.join "" "IMG_SNAPSHOTS")
  = ("/data", "x.db", "", "IMG_SNAPSHOTS")%string.
Proof. reflexivity. Qed.

(** One record [(3, 2000)], request [id = [3]] with annotation: the result
    is the labeled path, and the raw file is gone. *)
Example run_annotate_one :
  let P := writing_tool sample_labeled [Byte.x4c] in
  let r := run (P := P) (C := sample_clock P) (sample_self P)
             (PyList [AInt 3]) (PyAtom ANone) "OR" true false None empty_world in
  fst r = Ok [sample_labeled]
  /\ map_to_list (files (snd r)) = [(sample_labeled, [Byte.x4c])]
  /\ system_calls (log (snd r)) = 1%nat.
Proof. vm_compute. repeat split; reflexivity. Qed.

(** The same request with the tool missing: the raw file is removed all
    the same, and no frame is left on disk. *)
Example run_annotate_one_no_tool :
  let r := run (P := no_tool) (C := sample_clock no_tool) (sample_self no_tool)
             (PyList [AInt 3]) (PyAtom ANone) "OR" true false None empty_world in
  fst r = Ok [sample_labeled]
  /\ map_to_list (files (snd r)) = [].
Proof. vm_compute. repeat split; reflexivity. Qed.

(** No filter, no video, an empty snapshot directory: the empty list. *)
Example run_nothing :
  run (P := no_tool) (C := sample_clock no_tool) (sample_self no_tool)
    (PyAtom ANone) (PyAtom ANone) "OR" false false None empty_world
  = (Ok [], empty_world).
Proof. vm_compute. reflexivity. Qed.

(** Both filters: SQLite is handed the template itself. *)
Example run_both_filters :
  log (snd (run (P := no_tool) (C := sample_clock no_tool) (sample_self no_tool)
              (PyList [AInt 3]) (PyList [AInt 2000]) "AND" false false None
              (World ∅ (Archive [] []) [])))
  = [EvExecute "SELECT id, t, img FROM IMG_SNAPSHOTS WHERE {id_criteria} {flag} {t_criteria}"].
Proof. vm_compute. reflexivity. Qed.

(** * Part III: further facts about the extractor, the annotator, the
    video maker and the orchestrator *)

(** ** The monad *)

Lemma bind_Ok {A B} (m : M A) (k : A -> M B) (w w' : world) (a : A) :
  m w = (Ok a, w') -> bind m k w = k a w'.
Proof. intros H. unfold bind. rewrite H. reflexivity. Qed.

Lemma bind_Raise {A B} (m : M A) (k : A -> M B) (w w' : world) (e : exn) :
  m w = (Raise e, w') -> bind m k w = (Raise e, w').
Proof. intros H. unfold bind. rewrite H. reflexivity. Qed.

(** ** ImageExtractor.save_frame and get_frame on a whole selection *)

Section Extraction.
Context `{P : Platform}.

Lemma save_frame_cases (self : imager) (id t : Z) (blob : bytes) (w : world) :
  save_frame self id t blob w = (Ok (file_name_raw self id t), w)
  \/ (path_exists (file_name self id t) w = false
      /\ path_exists (file_name_raw self id t) w = false
      /\ save_frame self id t blob w
         = (Ok (file_name_raw self id t),
            World (<[file_name_raw self id t := blob]> (files w)) (db w)
                  (log w ++ [EvWrite (file_name_raw self id t) blob]))).
Proof.
  destruct (path_exists (file_name self id t) w
            || path_exists (file_name_raw self id t) w) eqn:E.
  - left. apply save_frame_present. exact E.
  - right. pose proof (save_frame_absent self id t blob w E) as H.
    apply orb_false_elim in E. destruct E as [E1 E2]. auto.
Qed.

Lemma path_exists_None (p : string) (w : world) :
  path_exists p w = false <-> files w !! p = None.
Proof.
  unfold path_exists. rewrite bool_decide_eq_false. split.
  - intros H. destruct (files w !! p) eqn:E; [|reflexivity]. exfalso. apply H. eauto.
  - intros -> [x Hx]. discriminate.
Qed.

Lemma path_exists_Some (p : string) (w : world) (b : bytes) :
  files w !! p = Some b -> path_exists p w = true.
Proof. intros H. unfold path_exists. apply bool_decide_eq_true. eauto. Qed.

Lemma save_frame_effect (self : imager) (id t : Z) (blob : bytes) (w : world) :
  let w' := snd (save_frame self id t blob w) in
  (forall p b, files w !! p = Some b -> files w' !! p = Some b)
  /\ (path_exists (file_name self id t) w = false ->
      path_exists (file_name_raw self id t) w = false ->
      files w' !! file_name_raw self id t = Some blob)
  /\ db w' = db w.
Proof.
  intros w'. subst w'.
  destruct (path_exists (file_name self id t) w
            || path_exists (file_name_raw self id t) w) eqn:E.
  - rewrite save_frame_present by exact E. simpl.
    split; [auto|]. split; [|reflexivity]. intros E1 E2.
    rewrite E1, E2 in E. discriminate E.
  - rewrite save_frame_absent by exact E. simpl.
    apply orb_false_elim in E. destruct E as [E1 E2].
    split; [|split; [intros _ _; apply lookup_insert_eq|reflexivity]].
    intros p b Hp. rewrite lookup_insert_ne; [exact Hp|].
    intros <-. apply path_exists_None in E2. congruence.
Qed.

Lemma save_frame_result (self : imager) (id t : Z) (blob : bytes) (w : world) :
  fst (save_frame self id t blob w) = Ok (file_name_raw self id t).
Proof.
  destruct (save_frame_cases self id t blob w) as [H|(_ & _ & H)];
    rewrite H; reflexivity.
Qed.

Lemma save_frame_materializes (self : imager) (r : frame_record) (w : world) :
  materialized self (snd (save_frame self (fr_id r) (fr_t r) (fr_img r) w)) r = true.
Proof.
  unfold materialized.
  destruct (path_exists (file_name self (fr_id r) (fr_t r)) w
            || path_exists (file_name_raw self (fr_id r) (fr_t r)) w) eqn:E.
  - rewrite save_frame_present by exact E. exact E.
  - rewrite save_frame_absent by exact E. simpl.
    rewrite (path_exists_insert (file_name_raw _ _ _)).
    rewrite decide_True by reflexivity. apply orb_true_r.
Qed.

Lemma materialized_mono (self : imager) (r : frame_record) (w w' : world) :
  (forall p b, files w !! p = Some b -> files w' !! p = Some b) ->
  materialized self w r = true -> materialized self w' r = true.
Proof.
  intros M. unfold materialized, path_exists. intros H.
  apply orb_true_iff in H. apply orb_true_iff.
  destruct H as [H|H]; [left|right];
    apply bool_decide_eq_true in H; destruct H as [b Hb];
    apply bool_decide_eq_true; exists b; apply M; exact Hb.
Qed.

(** The loop of [get_frame] over the selected rows. *)
Abbreviation save_rows self :=
  (mapM (fun c => save_frame self (fr_id c) (fr_t c) (fr_img c))).

Lemma save_rows_cons (self : imager) (r : frame_record) rows (w : world) :
  save_rows self (r :: rows) w
  = let w1 := snd (save_frame self (fr_id r) (fr_t r) (fr_img r) w) in
    match save_rows self rows w1 with
    | (Ok ys, w2) => (Ok (row_path self r :: ys), w2)
    | (Raise e, w2) => (Raise e, w2)
    end.
Proof.
  cbn [mapM]. unfold bind at 1.
  pose proof (save_frame_result self (fr_id r) (fr_t r) (fr_img r) w) as H.
  destruct (save_frame self (fr_id r) (fr_t r) (fr_img r) w) as [o w1].
  simpl in H. subst o. simpl. unfold bind at 1.
  destruct (mapM _ rows w1) as [[ys|e] w2]; reflexivity.
Qed.

Lemma save_rows_spec (self : imager) rows (w : world) :
  let w' := snd (save_rows self rows w) in
  fst (save_rows self rows w) = Ok (map (row_path self) rows)
  /\ (forall p b, files w !! p = Some b -> files w' !! p = Some b)
  /\ db w' = db w
  /\ Forall (fun r => materialized self w' r = true) rows.
Proof.
  revert w. induction rows as [|r rows IH]; intros w.
  - simpl. auto.
  - cbv zeta. rewrite save_rows_cons. cbv zeta.
    pose proof (save_frame_effect self (fr_id r) (fr_t r) (fr_img r) w) as K.
    cbv zeta in K. destruct K as (K1 & _ & K3).
    pose proof (save_frame_materializes self r w) as Mr.
    set (w1 := snd (save_frame self (fr_id r) (fr_t r) (fr_img r) w)) in *.
    specialize (IH w1). cbv zeta in IH. destruct IH as (I1 & I2 & I3 & I4).
    destruct (save_rows self rows w1) as [[ys|e] w2]; simpl in *; [|discriminate].
    injection I1 as ->.
    split; [reflexivity|]. split; [auto|]. split; [congruence|].
    constructor; [|exact I4].
    apply (materialized_mono self r w1 w2 I2 Mr).
Qed.

Lemma save_rows_noop (self : imager) rows (w : world) :
  Forall (fun r => materialized self w r = true) rows ->
  save_rows self rows w = (Ok (map (row_path self) rows), w).
Proof.
  induction 1 as [|r rows Hr _ IH]; [reflexivity|].
  rewrite save_rows_cons. cbv zeta.
  rewrite save_frame_present by exact Hr. simpl.
  rewrite IH. reflexivity.
Qed.

Lemma get_frame_Some (self : imager) (criteria : string) (w : world) :
  get_frame self (Some criteria) w
  = let w0 := log_event (EvExecute (select_statement criteria)) w in
    match sqlite_where criteria with
    | Raise e => (Raise e, w0)
    | Ok selected =>
        match save_rows self (List.filter selected (IMG_SNAPSHOTS (db w))) w0 with
        | (Ok l, w') => (Ok (Some l), w')
        | (Raise e, w') => (Raise e, w')
        end
    end.
Proof.
  unfold get_frame, bind at 1, execute_select. fold (select_statement criteria).
  cbv zeta. destruct (sqlite_where criteria) as [sel|e]; [|reflexivity].
  simpl db. unfold bind.
  destruct (mapM _ _ _) as [[l|e] w']; reflexivity.
Qed.

Lemma get_frame_raises (self : imager) (criteria : string) (w : world) (e : exn) :
  sqlite_where criteria = Raise e ->
  get_frame self (Some criteria) w
  = (Raise e,
     World (files w) (db w) (log w ++ [EvExecute (select_statement criteria)])).
Proof. intros H. rewrite get_frame_Some. cbv zeta. rewrite H. reflexivity. Qed.

(** X1. [save_frame] keeps every file that is there, content included,
    leaves the archive alone, and writes the blob as it is when the frame
    is new. *)
Theorem save_frame_keeps_files (self : imager) (id t : Z) (blob : bytes) (w : world) :
  let w' := snd (save_frame self id t blob w) in
  (forall p b, files w !! p = Some b -> files w' !! p = Some b)
  /\ (path_exists (file_name self id t) w = false ->
      path_exists (file_name_raw self id t) w = false ->
      files w' !! file_name_raw self id t = Some blob)
  /\ db w' = db w.
Proof.
  intros w'. subst w'.
  destruct (path_exists (file_name self id t) w
            || path_exists (file_name_raw self id t) w) eqn:E.
  - rewrite save_frame_present by exact E. simpl.
    split; [auto|]. split; [|reflexivity]. intros E1 E2.
    rewrite E1, E2 in E. discriminate E.
  - rewrite save_frame_absent by exact E. simpl.
    apply orb_false_elim in E. destruct E as [E1 E2].
    split; [|split; [intros _ _; apply lookup_insert_eq|reflexivity]].
    intros p b Hp. rewrite lookup_insert_ne; [exact Hp|].
    intros <-. apply path_exists_None in E2. congruence.
Qed.

(** X2. [get_frame] raises exactly when SQLite refuses the criteria, and
    then with the exception of SQLite: saving the rows never raises.  In
    that case the statement has been executed once and no file is
    created, changed or removed. *)
Theorem get_frame_refused (self : imager) (criteria : string) (w : world) (e : exn) :
  (fst (get_frame self (Some criteria) w) = Raise e <-> sqlite_where criteria = Raise e)
  /\ (sqlite_where criteria = Raise e ->
      snd (get_frame self (Some criteria) w)
      = World (files w) (db w) (log w ++ [EvExecute (select_statement criteria)])).
Proof.
  split.
  - rewrite get_frame_Some. cbv zeta.
    destruct (sqlite_where criteria) as [sel|e'] eqn:Q.
    + pose proof (save_rows_spec self (List.filter sel (IMG_SNAPSHOTS (db w)))
                    (log_event (EvExecute (select_statement criteria)) w)) as S.
      cbv zeta in S. destruct S as (S1 & _).
      destruct (save_rows self _ _) as [[l|e''] w1]; simpl in S1 |- *;
        [|discriminate S1].
      split; discriminate.
    + simpl. split; intros H; injection H as ->; reflexivity.
  - intros Q. rewrite (get_frame_raises self criteria w e Q). reflexivity.
Qed.

(** X3. When SQLite accepts the criteria, [get_frame] returns one raw path
    per selected row, in the order of the rows (also for rows already on
    disk, and twice for a row selected twice); every file that was there is
    still there with its content, and afterwards every selected row is on
    disk, raw or labeled. *)
Theorem get_frame_selected (self : imager) (criteria : string)
    (selected : frame_record -> bool) (w : world) :
  sqlite_where criteria = Ok selected ->
  let rows := List.filter selected (IMG_SNAPSHOTS (db w)) in
  let w' := snd (get_frame self (Some criteria) w) in
  fst (get_frame self (Some criteria) w) = Ok (Some (map (row_path self) rows))
  /\ (forall p b, files w !! p = Some b -> files w' !! p = Some b)
  /\ Forall (fun r => materialized self w' r = true) rows.
Proof.
  intros H rows w'. subst w'. rewrite get_frame_Some. cbv zeta. rewrite H.
  fold rows.
  pose proof (save_rows_spec self rows
                (log_event (EvExecute (select_statement criteria)) w)) as S.
  cbv zeta in S. destruct S as (S1 & S2 & _ & S4).
  destruct (save_rows self rows _) as [[l|e] w2]; simpl in *; [|discriminate].
  injection S1 as ->. auto.
Qed.

(** X4. Running the same query again returns the same result and leaves
    the files as the first run left them: nothing is written twice. *)
Theorem get_frame_again (self : imager) (criteria : string) (w : world) :
  let first := get_frame self (Some criteria) w in
  let second := get_frame self (Some criteria) (snd first) in
  fst second = fst first /\ files (snd second) = files (snd first).
Proof.
  intros first second. subst second first.
  destruct (sqlite_where criteria) as [sel|e0] eqn:Q.
  - pose proof (save_rows_spec self (List.filter sel (IMG_SNAPSHOTS (db w)))
                  (log_event (EvExecute (select_statement criteria)) w)) as S.
    cbv zeta in S. destruct S as (S1 & _ & S3 & S4).
    destruct (save_rows self _ _) as [[l|e] w1] eqn:R;
      cbn [fst snd] in S1, S3, S4; [|discriminate].
    injection S1 as ->.
    assert (G : get_frame self (Some criteria) w
                = (Ok (Some (map (row_path self)
                               (List.filter sel (IMG_SNAPSHOTS (db w))))), w1)).
    { rewrite get_frame_Some. cbv zeta. rewrite Q, R. reflexivity. }
    rewrite G. cbn [fst snd].
    rewrite get_frame_Some. cbv zeta. rewrite Q.
    replace (db w1) with (db w) by (symmetry; exact S3).
    rewrite save_rows_noop; [split; reflexivity|].
    eapply Forall_impl; [exact S4|]. intros r Hr.
    apply (materialized_mono self r w1); [|exact Hr]. auto.
  - rewrite (get_frame_raises self criteria w e0 Q). cbn [fst snd].
    rewrite (get_frame_raises self criteria _ e0 Q). split; reflexivity.
Qed.

End Extraction.

Lemma get_frame_refused_witness :
  snd (get_frame (P := strict_sqlite) (sample_self strict_sqlite)
         (Some "{id_criteria} {flag} {t_criteria}"%string) empty_world)
  = World (files empty_world) (db empty_world)
      (log empty_world
       ++ [EvExecute (select_statement "{id_criteria} {flag} {t_criteria}")]).
Proof.
  apply (proj2 (get_frame_refused (P := strict_sqlite) (sample_self strict_sqlite)
                  "{id_criteria} {flag} {t_criteria}" empty_world
                  (OperationalError
                     (select_statement "{id_criteria} {flag} {t_criteria}")))).
  reflexivity.
Defined.

Lemma get_frame_selected_witness :
  let rows := List.filter (fun _ => true) (IMG_SNAPSHOTS (db empty_world)) in
  let w' := snd (get_frame (P := no_tool) (sample_self no_tool)
                   (Some "id in (3)"%string) empty_world) in
  fst (get_frame (P := no_tool) (sample_self no_tool)
         (Some "id in (3)"%string) empty_world)
  = Ok (Some (map (row_path (sample_self no_tool)) rows))
  /\ (forall p b, files empty_world !! p = Some b -> files w' !! p = Some b)
  /\ Forall (fun r => materialized (sample_self no_tool) w' r = true) rows.
Proof.
  apply (get_frame_selected (P := no_tool) (sample_self no_tool)
           "id in (3)" (fun _ => true) empty_world).
  reflexivity.
Defined.

(** ** The names of the frames: taking them apart again *)

Module NameFacts.
Import PyInt PyIntFacts.

Lemma contains_char_app (c : ascii) (s t : string) :
  PyString.contains_char c (s +:+ t)
  = PyString.contains_char c s || PyString.contains_char c t.
Proof.
  induction s as [|a s IH]; [reflexivity|].
  rewrite PyStringFacts.app_cons. cbn [PyString.contains_char].
  rewrite IH, orb_assoc. reflexivity.
Qed.

(** A numeral holds neither of the separators of a name, nor a slash. *)
Lemma numeral_no_char (c : ascii) (s : string) :
  numeral_char c = false ->
  all_chars numeral_char s = true -> PyString.contains_char c s = false.
Proof.
  intros Hc. induction s as [|a s IH]; [reflexivity|].
  cbn [all_chars PyString.contains_char]. intros H.
  apply andb_true_iff in H. destruct H as [H1 H2]. rewrite (IH H2), orb_false_r.
  destruct (Ascii.eqb_spec a c) as [->|]; [congruence|reflexivity].
Qed.

Lemma app_inv_head (p s t : string) : p +:+ s = p +:+ t -> s = t.
Proof.
  induction p as [|c p IH]; [exact (fun H => H)|].
  rewrite !PyStringFacts.app_cons. intros H. injection H as H. auto.
Qed.

(** The raw name splits at its underscores into id, time and the marker
    with the extension. *)
Lemma split_frame_name_raw (id t : Z) :
  PyString.split "_" (frame_name_raw id t)
  = [format_05d id; str t; "raw.jpg"%string].
Proof.
  unfold frame_name_raw.
  change ("_" +:+ str t +:+ "_raw.jpg") with (String "_" (str t +:+ "_raw.jpg")).
  rewrite CriteriaFacts.split_app_sep
    by (apply numeral_no_char; [reflexivity|apply PathFacts.format_05d_numeral]).
  f_equal.
  change (str t +:+ "_raw.jpg") with (str t +:+ String "_" "raw.jpg").
  rewrite CriteriaFacts.split_app_sep
    by (apply numeral_no_char; [reflexivity|apply str_numeral]).
  reflexivity.
Qed.

(** The labeled name splits into id and the time with the extension. *)
Lemma split_frame_name (id t : Z) :
  PyString.split "_" (frame_name id t) = [format_05d id; str t +:+ ".jpg"].
Proof.
  unfold frame_name.
  change ("_" +:+ str t +:+ ".jpg") with (String "_" (str t +:+ ".jpg")).
  rewrite CriteriaFacts.split_app_sep
    by (apply numeral_no_char; [reflexivity|apply PathFacts.format_05d_numeral]).
  f_equal. apply CriteriaFacts.split_no_sep.
  rewrite contains_char_app.
  rewrite (numeral_no_char "_" (str t)) by (reflexivity || apply str_numeral).
  reflexivity.
Qed.

Lemma split_dot_time (t : Z) :
  PyString.split "." (str t) = [str t]
  /\ exists rest, PyString.split "." (str t +:+ ".jpg") = str t :: rest.
Proof.
  assert (N : PyString.contains_char "." (str t) = false)
    by (apply numeral_no_char; [reflexivity|apply str_numeral]).
  split; [apply CriteriaFacts.split_no_sep; exact N|].
  change (str t +:+ ".jpg") with (str t +:+ String "." "jpg").
  rewrite CriteriaFacts.split_app_sep by exact N. eauto.
Qed.

Lemma frame_name_no_slash (id t : Z) :
  PyString.contains_char "/" (frame_name id t) = false
  /\ PyString.contains_char "/" (frame_name_raw id t) = false.
Proof.
  unfold frame_name, frame_name_raw. rewrite !contains_char_app.
  rewrite (numeral_no_char "/" (format_05d id))
    by (reflexivity || apply PathFacts.format_05d_numeral).
  rewrite (numeral_no_char "/" (str t)) by (reflexivity || apply str_numeral).
  split; reflexivity.
Qed.

Lemma rsplit_slash_None (s : string) :
  PyString.contains_char "/" s = false -> PosixPath.rsplit_slash s = None.
Proof.
  induction s as [|c s IH]; [reflexivity|].
  cbn [PyString.contains_char PosixPath.rsplit_slash]. intros H.
  apply orb_false_elim in H. destruct H as [H1 H2].
  rewrite (IH H2), H1. reflexivity.
Qed.

Lemma rsplit_slash_app (pre name : string) :
  PyString.contains_char "/" name = false ->
  PosixPath.rsplit_slash (pre +:+ String "/" name) = Some (pre +:+ "/", name).
Proof.
  intros H. induction pre as [|c pre IH].
  - change ("" +:+ String "/" name) with (String "/" name).
    cbn [PosixPath.rsplit_slash]. rewrite (rsplit_slash_None name H). reflexivity.
  - rewrite !PyStringFacts.app_cons. cbn [PosixPath.rsplit_slash].
    rewrite IH. reflexivity.
Qed.

Lemma basename_app (pre name : string) :
  PyString.contains_char "/" name = false ->
  PosixPath.basename (pre +:+ String "/" name) = name.
Proof.
  intros H. unfold PosixPath.basename. rewrite rsplit_slash_app by exact H.
  reflexivity.
Qed.

Lemma basename_no_slash (p : string) :
  PyString.contains_char "/" (PosixPath.basename p) = false.
Proof.
  unfold PosixPath.basename.
  assert (G : forall q, match PosixPath.rsplit_slash q with
                        | Some (_, t) => PyString.contains_char "/" t = false
                        | None => PyString.contains_char "/" q = false
                        end).
  { induction q as [|c q IH]; [reflexivity|].
    cbn [PosixPath.rsplit_slash PyString.contains_char].
    destruct (PosixPath.rsplit_slash q) as [[h t]|].
    - exact IH.
    - destruct (Ascii.eqb c "/"); [exact IH|]. rewrite IH. reflexivity. }
  specialize (G p). destruct (PosixPath.rsplit_slash p) as [[h t]|]; exact G.
Qed.

Lemma parse_digits_zeros (k : nat) (s : string) :
  parse_digits 0 (zeros k +:+ s) = parse_digits 0 s.
Proof.
  induction k as [|k IH]; [reflexivity|].
  cbn [zeros]. rewrite PyStringFacts.app_cons. cbn [parse_digits].
  change (digit_value "0") with (Some 0). cbn iota. exact IH.
Qed.

Lemma parse_int_digits (c : ascii) (s : string) :
  is_digit c = true -> parse_int (String c s) = parse_digits 0 (String c s).
Proof.
  intros H. pose proof (is_digit_not_minus c H) as N. unfold parse_int.
  destruct c as [[] [] [] [] [] [] [] []]; try reflexivity.
  contradiction N. reflexivity.
Qed.

(** The padded id reads back as the id, whatever its sign and width. *)
Lemma parse_int_format_05d (n : Z) : parse_int (format_05d n) = Some n.
Proof.
  unfold format_05d, zfill. destruct (n <? 0) eqn:E.
  - apply Z.ltb_lt in E.
    destruct (str_nonneg_cons (- n)) as (c & s & Hs & Hc); [lia|].
    pose proof (parse_str_nonneg (- n)) as R.
    pose proof (parse_digits_zeros (4 - String.length (str_nonneg (- n)))
                  (str_nonneg (- n))) as Z0.
    rewrite R in Z0 by lia.
    change ("-" +:+ ?x) with (String "-" x).
    destruct (zeros (4 - String.length (str_nonneg (- n))) +:+ str_nonneg (- n))
      as [|a u] eqn:U.
    + cbn [parse_digits] in Z0. injection Z0 as Z0. lia.
    + unfold parse_int. rewrite Z0. cbn [option_map]. f_equal. lia.
  - apply Z.ltb_ge in E.
    destruct (str_nonneg_cons n E) as (c & s & Hs & Hc).
    pose proof (parse_digits_zeros (5 - String.length (str_nonneg n))
                  (str_nonneg n)) as Z0.
    rewrite (parse_str_nonneg n E) in Z0.
    destruct (5 - String.length (str_nonneg n))%nat as [|k].
    + change (zeros 0 +:+ ?x) with x in *. rewrite Hs in *.
      rewrite parse_int_digits by exact Hc. exact Z0.
    + cbn [zeros] in *. rewrite PyStringFacts.app_cons in *.
      rewrite parse_int_digits by reflexivity. exact Z0.
Qed.

(** A name determines its record. *)
Lemma frame_name_raw_inj (id1 t1 id2 t2 : Z) :
  frame_name_raw id1 t1 = frame_name_raw id2 t2 -> id1 = id2 /\ t1 = t2.
Proof.
  intros H. apply (f_equal (PyString.split "_")) in H.
  rewrite !split_frame_name_raw in H. injection H as HF HT.
  apply (f_equal parse_int) in HF, HT.
  rewrite !parse_int_format_05d in HF. rewrite !parse_int_str in HT.
  split; congruence.
Qed.

Lemma frame_name_inj (id1 t1 id2 t2 : Z) :
  frame_name id1 t1 = frame_name id2 t2 -> id1 = id2 /\ t1 = t2.
Proof.
  intros H. apply (f_equal (PyString.split "_")) in H.
  rewrite !split_frame_name in H. injection H as HF HT.
  apply (f_equal (PyString.split ".")) in HT.
  destruct (split_dot_time t1) as (_ & r1 & E1).
  destruct (split_dot_time t2) as (_ & r2 & E2).
  rewrite E1, E2 in HT. injection HT as HT _.
  apply (f_equal parse_int) in HF, HT.
  rewrite !parse_int_format_05d in HF. rewrite !parse_int_str in HT.
  split; congruence.
Qed.

Lemma frame_name_raw_not_labeled (id1 t1 id2 t2 : Z) :
  frame_name_raw id1 t1 <> frame_name id2 t2.
Proof.
  intros H. apply (f_equal (PyString.split "_")) in H.
  rewrite split_frame_name_raw, split_frame_name in H. discriminate H.
Qed.

End NameFacts.

Module DirFacts.
Import PyInt PyIntFacts.

Lemma startswith_app (p s : string) : PyString.startswith p (p +:+ s) = true.
Proof.
  induction p as [|c p IH]; [reflexivity|].
  rewrite PyStringFacts.app_cons. cbn [PyString.startswith].
  rewrite Ascii.eqb_refl. exact IH.
Qed.

Lemma endswith_app (p s : string) : PyString.endswith p (s +:+ p) = true.
Proof.
  induction s as [|c s IH].
  - change ("" +:+ p) with p. destruct p as [|a p]; [reflexivity|].
    cbn [PyString.endswith]. rewrite String.eqb_refl. reflexivity.
  - rewrite PyStringFacts.app_cons. cbn [PyString.endswith].
    rewrite IH. apply orb_true_r.
Qed.

Lemma no_slash_relative (b : string) :
  PyString.contains_char "/" b = false -> PyString.startswith "/" b = false.
Proof.
  destruct b as [|c b]; [reflexivity|].
  cbn [PyString.contains_char PyString.startswith]. intros H.
  apply orb_false_elim in H. destruct H as [H _].
  rewrite Ascii.eqb_sym, H. reflexivity.
Qed.

(** The snapshot directory is never empty and never ends in a slash, so a
    name is joined to it with one slash. *)
Lemma snapshot_dir_prefix (folder : string) :
  dir_prefix (PosixPath.join folder "IMG_SNAPSHOTS")
  = PosixPath.join folder "IMG_SNAPSHOTS" +:+ "/".
Proof.
  rewrite ReplaceFacts.snapshot_prefix.
  rewrite PathFacts.join_relative by reflexivity.
  rewrite PyStringFacts.app_assoc. reflexivity.
Qed.

Lemma numeral_not_dot (c : ascii) (s : string) :
  numeral_char c = true -> PyString.startswith "." (String c s) = false.
Proof.
  intros H. cbn [PyString.startswith].
  destruct (Ascii.eqb_spec "." c) as [<-|]; [discriminate H|reflexivity].
Qed.

(** Both names of a frame match [*.jpg]. *)
Lemma frame_names_jpg (id t : Z) :
  jpg_name (frame_name id t) = true /\ jpg_name (frame_name_raw id t) = true.
Proof.
  unfold jpg_name.
  destruct (NameFacts.frame_name_no_slash id t) as [S1 S2]. rewrite S1, S2.
  unfold frame_name, frame_name_raw.
  destruct (PathFacts.format_05d_cons id) as (c & s & -> & Hc).
  rewrite !PyStringFacts.app_cons, !numeral_not_dot by exact Hc.
  rewrite <- !PyStringFacts.app_cons.
  rewrite <- !PyStringFacts.app_assoc.
  change "_raw.jpg" with ("_raw" +:+ ".jpg").
  rewrite <- (PyStringFacts.app_assoc _ "_raw" ".jpg").
  rewrite !endswith_app. split; reflexivity.
Qed.

End DirFacts.

Section Directory.
Context `{P : Platform}.

Lemma file_name_in_dir (self : imager) (id t : Z) :
  file_name self id t
  = PosixPath.join (experiment_folder self) "IMG_SNAPSHOTS"
    +:+ String "/" (frame_name id t)
  /\ file_name_raw self id t
     = PosixPath.join (experiment_folder self) "IMG_SNAPSHOTS"
       +:+ String "/" (frame_name_raw id t).
Proof.
  destruct (file_name_split self id t) as [-> ->].
  rewrite DirFacts.snapshot_dir_prefix, !PyStringFacts.app_assoc.
  split; reflexivity.
Qed.

Lemma basename_file_name (self : imager) (id t : Z) :
  PosixPath.basename (file_name self id t) = frame_name id t
  /\ PosixPath.basename (file_name_raw self id t) = frame_name_raw id t.
Proof.
  destruct (file_name_in_dir self id t) as [-> ->].
  destruct (NameFacts.frame_name_no_slash id t) as [S1 S2].
  rewrite !NameFacts.basename_app by assumption. split; reflexivity.
Qed.

Lemma jpg_in_frames (self : imager) (id t : Z) :
  well_formed self ->
  jpg_in (img_snapshots self) (file_name self id t) = true
  /\ jpg_in (img_snapshots self) (file_name_raw self id t) = true.
Proof.
  unfold well_formed. intros W. unfold jpg_in. rewrite W.
  destruct (basename_file_name self id t) as [-> ->].
  destruct (DirFacts.frame_names_jpg id t) as [-> ->].
  destruct (PathFacts.frame_name_relative id t) as [R1 R2].
  destruct (file_name_split self id t) as [-> ->].
  rewrite (PathFacts.join_relative _ (frame_name id t)) by exact R1.
  rewrite (PathFacts.join_relative _ (frame_name_raw id t)) by exact R2.
  rewrite !bool_decide_eq_true_2 by reflexivity. split; reflexivity.
Qed.

(** What [*.jpg] matches in the snapshot directory lies under it. *)
Lemma jpg_in_inside (self : imager) (p : string) :
  well_formed self ->
  jpg_in (img_snapshots self) p = true ->
  PyString.startswith (img_snapshots self +:+ "/") p = true.
Proof.
  unfold well_formed. intros W. unfold jpg_in. rewrite W. intros H.
  apply andb_true_iff in H. destruct H as [H _].
  apply bool_decide_eq_true in H.
  rewrite PathFacts.join_relative in H
    by (apply DirFacts.no_slash_relative, NameFacts.basename_no_slash).
  rewrite DirFacts.snapshot_dir_prefix in H.
  revert H. generalize (PosixPath.basename p). intros b ->.
  apply DirFacts.startswith_app.
Qed.

(** X5. The name is the address of a frame: the raw path of a record is
    never the labeled path of a record, the same one included, and two
    different records never share a raw path or a labeled path. *)
Theorem file_names_injective (self : imager) (id1 t1 id2 t2 : Z) :
  file_name_raw self id1 t1 <> file_name self id2 t2
  /\ ((id1, t1) <> (id2, t2) ->
      file_name_raw self id1 t1 <> file_name_raw self id2 t2
      /\ file_name self id1 t1 <> file_name self id2 t2).
Proof.
  destruct (file_name_split self id1 t1) as [-> ->].
  destruct (file_name_split self id2 t2) as [-> ->].
  split.
  - intros H. apply NameFacts.app_inv_head in H.
    exact (NameFacts.frame_name_raw_not_labeled _ _ _ _ H).
  - intros N. split; intros H; apply NameFacts.app_inv_head in H.
    + apply NameFacts.frame_name_raw_inj in H. destruct H; congruence.
    + apply NameFacts.frame_name_inj in H. destruct H; congruence.
Qed.

Lemma frame_time_file_name (self : imager) (id t : Z) :
  frame_time (file_name_raw self id t) = py_int (PyInt.str t)
  /\ frame_time (file_name self id t) = py_int (PyInt.str t).
Proof.
  unfold frame_time.
  destruct (basename_file_name self id t) as [-> ->].
  rewrite NameFacts.split_frame_name_raw, NameFacts.split_frame_name.
  destruct (NameFacts.split_dot_time t) as (-> & r & ->). split; reflexivity.
Qed.

(** X6. The time [make_pool] reads out of the path of a frame is the text
    [save_frame] printed for [t]: [int] is applied to exactly [str(t)],
    for the raw and for the labeled path, whatever the folder. *)
Theorem frame_time_of_saved (self : imager) (id t : Z) :
  frame_time (file_name_raw self id t) = py_int (PyInt.str t)
  /\ frame_time (file_name self id t) = py_int (PyInt.str t).
Proof.
  unfold frame_time.
  destruct (basename_file_name self id t) as [E1 E2]. rewrite E1, E2.
  rewrite NameFacts.split_frame_name_raw, NameFacts.split_frame_name.
  destruct (NameFacts.split_dot_time t) as (D1 & r & D2). rewrite D1, D2.
  split; reflexivity.
Qed.

(** X7. For an imager as [__init__] builds it whose snapshot directory
    has a path without pattern characters, [list_snapshots] reports a
    frame of the imager exactly when its file exists, raw files included:
    the pattern [*.jpg] matches the raw names as well as the labeled
    ones. *)
Theorem list_snapshots_frames (self : imager) (w : world) :
  well_formed self ->
  has_magic (img_snapshots self) = false ->
  exists l, list_snapshots self w = (Ok l, w)
    /\ forall id t,
         (In (file_name_raw self id t) l <-> path_exists (file_name_raw self id t) w = true)
         /\ (In (file_name self id t) l <-> path_exists (file_name self id t) w = true).
Proof.
  intros W Hm. destruct (list_snapshots_spec self w Hm) as (l & E & H).
  exists l. split; [exact E|]. intros id t.
  destruct (jpg_in_frames self id t W) as [J1 J2].
  rewrite !H, J1, J2. split; split; tauto.
Qed.

End Directory.

Lemma file_names_injective_witness :
  file_name_raw (sample_self no_tool) 1 500 <> file_name_raw (sample_self no_tool) 2 100
  /\ file_name (sample_self no_tool) 1 500 <> file_name (sample_self no_tool) 2 100.
Proof.
  apply (file_names_injective (P := no_tool) (sample_self no_tool) 1 500 2 100).
  discriminate.
Defined.

Lemma list_snapshots_frames_witness :
  exists l, list_snapshots (sample_self no_tool) raw_world = (Ok l, raw_world)
    /\ forall id t,
         (In (file_name_raw (sample_self no_tool) id t) l
          <-> path_exists (file_name_raw (sample_self no_tool) id t) raw_world = true)
         /\ (In (file_name (sample_self no_tool) id t) l
             <-> path_exists (file_name (sample_self no_tool) id t) raw_world = true).
Proof.
  apply (list_snapshots_frames (P := no_tool) (sample_self no_tool) raw_world).
  - reflexivity.
  - reflexivity.
Defined.

(** ** Annotator.make_pool, annotate_image and annotate *)

Lemma omapM_In_Raise {A B} (g : A -> outcome B) (l : list A) (x : A) :
  In x l -> (exists e, g x = Raise e) -> exists e, omapM g l = Raise e.
Proof.
  intros Hin [e He]. induction l as [|y l IH]; [contradiction|].
  cbn [omapM]. destruct Hin as [->|Hin].
  - rewrite He. eauto.
  - destruct (g y) as [b|e']; [|eauto]. cbn [obind].
    destruct (IH Hin) as [e' ->]. eauto.
Qed.






Section Annotator.
Context `{P : Platform} `{C : @Clock P}.

Lemma frame_time_no_underscore (f : string) :
  PyString.contains_char "_" (PosixPath.basename f) = false ->
  frame_time f = Raise IndexError.
Proof.
  intros H. unfold frame_time.
  rewrite CriteriaFacts.split_no_sep by exact H. reflexivity.
Qed.




(** X9. A file name without an underscore stops [annotate] in [make_pool],
    before the pool maps anything: the call raises, and no frame of the
    list is annotated, not even the well-named ones before it (no tool is
    called, no file is touched). *)
Theorem annotate_bad_name (self : imager) (filenames : list string) (f : string)
    (cores : Z) (w : world) :
  In f filenames ->
  PyString.contains_char "_" (PosixPath.basename f) = false ->
  exists e, annotate self (Some filenames) cores w = (Raise e, w).
Proof.
  intros Hin Hf.
  destruct (omapM_In_Raise (fun f => obind (frame_time f) (fun t => Ok (f, t)))
              filenames f Hin) as [e He].
  { exists IndexError. rewrite frame_time_no_underscore by exact Hf. reflexivity. }
  unfold annotate, bind, lift, make_pool. destruct (cores <? 1).
  - eexists. reflexivity.
  - exists e. rewrite He. reflexivity.
Qed.


(** X11. [annotate_image] raises in two ways only.  Either the
    computation of the label raises, and then nothing was looked at or
    changed; or the label was computed, the labeled file was not there,
    the tool was called once and the raw file is missing afterwards, and
    then the exception is [FileNotFoundError] for the raw path, with the
    files as the tool left them. *)
Theorem annotate_image_missing_raw (self : imager) (f : string) (time : Z)
    (w : world) :
  let out := PyString.replace "_raw" "" f in
  let r := annotate_image self (f, time) w in
  (forall e, fst r = Raise e ->
     (timestamp_label time (t0 self) = Raise e /\ snd r = w)
     \/ (exists label status fs,
           timestamp_label time (t0 self) = Ok label
           /\ path_exists out w = false
           /\ run_command (convert_command f label out) (files w) = (status, fs)
           /\ fs !! f = None
           /\ e = FileNotFoundError f
           /\ snd r = World fs (db w)
                        (log w ++ [EvSystem (convert_command f label out)])))
  /\ (forall label status fs,
        timestamp_label time (t0 self) = Ok label ->
        path_exists out w = false ->
        run_command (convert_command f label out) (files w) = (status, fs) ->
        fs !! f = None ->
        r = (Raise (FileNotFoundError f),
             World fs (db w) (log w ++ [EvSystem (convert_command f label out)]))).
Proof.
  intros out r. split.
  - intros e H. subst r.
    destruct (timestamp_label time (t0 self)) as [label|e'] eqn:L.
    + right. destruct (path_exists out w) eqn:X.
      * rewrite (annotate_image_skip self f time w label L X) in H. discriminate H.
      * destruct (run_command (convert_command f label out) (files w))
          as [status fs] eqn:R.
        rewrite (annotate_image_run self f time w label status fs L X R) in H |- *.
        destruct (bool_decide (is_Some (fs !! f))) eqn:B; [discriminate H|].
        simpl in H. injection H as <-.
        apply bool_decide_eq_false in B.
        assert (G : fs !! f = None).
        { destruct (fs !! f) eqn:G; [|reflexivity]. exfalso. apply B. eauto. }
        exists label, status, fs.
        repeat split; first [reflexivity | assumption].
    + left. rewrite (annotate_image_label_raises self f time w e' L) in H |- *.
      simpl in H. injection H as <-. split; reflexivity.
  - intros label status fs L X R N. subst r.
    rewrite (annotate_image_run self f time w label status fs L X R).
    rewrite bool_decide_eq_false_2; [reflexivity|].
    rewrite N. intros [x Hx]. discriminate Hx.
Qed.

(** X12. Extraction undoes a failed annotation. In a folder whose path
    does not hold the marker: when the label of the frame can be computed
    and the tool fails on the frame without changing a file, the raw file
    is gone; saving the same record again writes the raw file back with
    the blob, and the labeled file is still not there, so the next
    annotation finds the frame as it was. *)
Theorem save_frame_after_failed_annotation (self : imager) (id t time : Z)
    (blob : bytes) (w : world) (label : string) (status : Z) :
  let raw := file_name_raw self id t in
  let command := convert_command raw label (file_name self id t) in
  contains "_raw" (experiment_folder self) = false ->
  timestamp_label time (t0 self) = Ok label ->
  path_exists (file_name self id t) w = false ->
  run_command command (files w) = (status, files w) ->
  let w1 := snd (annotate_image self (raw, time) w) in
  let w2 := snd (save_frame self id t blob w1) in
  path_exists raw w1 = false
  /\ files w2 = <[raw := blob]> (files w)
  /\ path_exists (file_name self id t) w2 = false.
Proof.
  intros raw command Hf L Hl R w1 w2. subst raw command.
  pose proof (replace_file_name_raw self id t Hf) as E.
  assert (F1 : files w1 = delete (file_name_raw self id t) (files w)).
  { subst w1. apply (annotate_image_files self _ time w label status).
    - exact L.
    - rewrite E. exact Hl.
    - rewrite E. exact R. }
  pose proof (frame_names_differ self id t) as N.
  assert (L1 : path_exists (file_name self id t) w1 = false).
  { apply path_exists_None. rewrite F1, lookup_delete_ne by exact N.
    apply path_exists_None. exact Hl. }
  assert (R1 : path_exists (file_name_raw self id t) w1 = false).
  { apply path_exists_None. rewrite F1. apply lookup_delete_eq. }
  split; [exact R1|].
  assert (S : files w2 = <[file_name_raw self id t := blob]> (files w1)).
  { subst w2. rewrite save_frame_absent by (rewrite L1, R1; reflexivity).
    reflexivity. }
  split.
  - rewrite S, F1. apply insert_delete_eq.
  - apply path_exists_None. rewrite S, lookup_insert_ne by exact N.
    apply path_exists_None. exact L1.
Qed.

(** X13. For a pool of at least one worker, on the paths [get_frame]
    returns, [make_pool] pairs every path with the time offset of its
    row, provided [int] reads back what [str] printed; for a number of
    workers below one it raises the [ValueError] of [Pool], whatever the
    paths. *)
Theorem make_pool_of_rows (self : imager) (rows : list frame_record) (cores : Z) :
  (1 <= cores ->
   (forall t, py_int (PyInt.str t) = Ok t) ->
   make_pool (map (row_path self) rows) cores
   = Ok (map (fun r => (row_path self r, fr_t r)) rows))
  /\ (cores < 1 ->
      make_pool (map (row_path self) rows) cores
      = Raise (ValueError "Number of processes must be at least 1")).
Proof.
  unfold make_pool. split.
  - intros Hc I. destruct (Z.ltb_spec cores 1); [lia|].
    induction rows as [|r rows IH]; [reflexivity|].
    cbn [map omapM]. unfold row_path at 1.
    rewrite (proj1 (frame_time_file_name self (fr_id r) (fr_t r))), I.
    cbn [obind]. rewrite IH. reflexivity.
  - intros Hc. destruct (Z.ltb_spec cores 1); [reflexivity|lia].
Qed.

End Annotator.

Lemma annotate_bad_name_witness :
  exists e,
    annotate (P := no_tool) (C := sample_clock no_tool) (sample_self no_tool)
      (Some [sample_raw; "/data/IMG_SNAPSHOTS/picture.jpg"%string]) 4 raw_world
    = (Raise e, raw_world).
Proof.
  apply (annotate_bad_name (P := no_tool) (C := sample_clock no_tool)
           (sample_self no_tool) _ "/data/IMG_SNAPSHOTS/picture.jpg").
  - right. left. reflexivity.
  - reflexivity.
Defined.


Lemma annotate_image_missing_raw_witness :
  annotate_image (P := no_tool) (C := sample_clock no_tool) (sample_self no_tool)
    (sample_raw, 2000) empty_world
  = (Raise (FileNotFoundError sample_raw),
     World (files empty_world) (db empty_world)
       (log empty_world
        ++ [EvSystem (convert_command sample_raw "1970-01-01 00:00:02"
                        (PyString.replace "_raw" "" sample_raw))])).
Proof.
  apply (proj2 (annotate_image_missing_raw (P := no_tool) (C := sample_clock no_tool)
                  (sample_self no_tool) sample_raw 2000 empty_world)
           "1970-01-01 00:00:02"%string 32512 (files empty_world)).
  - reflexivity.
  - reflexivity.
  - reflexivity.
  - reflexivity.
Defined.

Lemma save_frame_after_failed_annotation_witness :
  let w1 := snd (annotate_image (P := no_tool) (C := sample_clock no_tool)
                   (sample_self no_tool) (file_name_raw (sample_self no_tool) 3 2000, 2000)
                   raw_world) in
  let w2 := snd (save_frame (sample_self no_tool) 3 2000 [Byte.x4a] w1) in
  path_exists (file_name_raw (sample_self no_tool) 3 2000) w1 = false
  /\ files w2 = <[file_name_raw (sample_self no_tool) 3 2000 := [Byte.x4a]]> (files raw_world)
  /\ path_exists (file_name (sample_self no_tool) 3 2000) w2 = false.
Proof.
  apply (save_frame_after_failed_annotation (P := no_tool) (C := sample_clock no_tool)
           (sample_self no_tool) 3 2000 2000 [Byte.x4a] raw_world
           "1970-01-01 00:00:02"%string 32512).
  - reflexivity.
  - reflexivity.
  - reflexivity.
  - reflexivity.
Defined.

Lemma make_pool_of_rows_witness :
  make_pool (P := no_tool)
    (map (row_path (sample_self no_tool)) (IMG_SNAPSHOTS sample_archive)) 4
  = Ok (map (fun r => (row_path (sample_self no_tool) r, fr_t r))
          (IMG_SNAPSHOTS sample_archive)).
Proof.
  apply (proj1 (make_pool_of_rows (P := no_tool) (sample_self no_tool)
                  (IMG_SNAPSHOTS sample_archive) 4)).
  - lia.
  - intros t. simpl. unfold sample_int. rewrite PyIntFacts.parse_int_str. reflexivity.
Defined.

(** ** VideoMaker.make_video and EthoscopeImager.run *)

Module VideoFacts.

Lemma basename_keeps_suffix (x s : string) :
  PyString.contains_char "/" s = false ->
  exists u, PosixPath.basename (x +:+ s) = u +:+ s.
Proof.
  intros H. unfold PosixPath.basename.
  assert (G : forall y, match PosixPath.rsplit_slash (y +:+ s) with
                        | Some (_, t) => exists u, t = u +:+ s
                        | None => True
                        end).
  { induction y as [|c y IH].
    - change ("" +:+ s) with s. rewrite NameFacts.rsplit_slash_None by exact H. exact I.
    - rewrite PyStringFacts.app_cons. cbn [PosixPath.rsplit_slash].
      destruct (PosixPath.rsplit_slash (y +:+ s)) as [[h t]|]; [exact IH|].
      destruct (Ascii.eqb c "/"); [|exact I]. exists y. reflexivity. }
  specialize (G x). destruct (PosixPath.rsplit_slash (x +:+ s)) as [[h t]|].
  - exact G.
  - exists x. reflexivity.
Qed.

Lemma not_jpg_mp4 (u : string) : PyString.endswith ".jpg" (u +:+ ".mp4") = false.
Proof.
  induction u as [|c u IH]; [reflexivity|].
  rewrite PyStringFacts.app_cons. cbn [PyString.endswith]. rewrite IH, orb_false_r.
  apply String.eqb_neq. intros E. apply (f_equal String.length) in E.
  simpl in E. rewrite PyStringFacts.app_length in E. simpl in E. lia.
Qed.

End VideoFacts.

Section Run.
Context `{P : Platform} `{C : @Clock P}.

Lemma make_video_eq (self : imager) (fps : Z) (w : world) :
  make_video self fps w
  = (Ok (video_path self),
     World (snd (run_command (ffmpeg_command fps (img_snapshots self) (video_path self))
                   (files w)))
           (db w)
           (log w ++ [EvSystem (ffmpeg_command fps (img_snapshots self) (video_path self))])).
Proof.
  unfold make_video, bind, os_system, ret. fold (video_path self).
  destruct (run_command _ (files w)) as [st fs]. reflexivity.
Qed.

(** The stages of [run], one after the other. *)
Lemma run_stages (self : imager) (id t : pyval) (flag : string) (a v : bool)
    (fps : option Z) (w : world) :
  run self id t flag a v fps w
  = match get_criteria id t with
    | Raise e => (Raise e, w)
    | Ok criteria =>
        match get_frame self criteria w with
        | (Raise e, w1) => (Raise e, w1)
        | (Ok filenames, w1) =>
            match (if truthy filenames then annotate self filenames 4 w1
                   else (Ok filenames, w1)) with
            | (Raise e, w2) => (Raise e, w2)
            | (Ok filenames, w2) =>
                if v then
                  (Ok [video_path self], snd (make_video self (default 10 fps) w2))
                else
                  match filenames with
                  | None => list_snapshots self w2
                  | Some filenames => (Ok filenames, w2)
                  end
            end
        end
    end.
Proof.
  unfold run, bind at 1, lift.
  destruct (get_criteria id t) as [criteria|e]; [|reflexivity].
  unfold bind at 1. destruct (get_frame self criteria w) as [[filenames|e] w1];
    [|reflexivity].
  unfold bind at 1. rewrite orb_true_r. cbn [andb].
  assert (K : forall (fn : option (list string)) (w2 : world),
            bind (if v then bind (make_video self (default 10 fps))
                              (fun output => ret (Some [output]))
                  else ret fn)
                 (fun filenames => match filenames with
                                   | Some l => ret l
                                   | None => list_snapshots self
                                   end) w2
            = if v then (Ok [video_path self], snd (make_video self (default 10 fps) w2))
              else match fn with
                   | None => list_snapshots self w2
                   | Some l => (Ok l, w2)
                   end).
  { intros fn w2. destruct v.
    - unfold bind. rewrite make_video_eq. reflexivity.
    - unfold bind, ret. destruct fn as [l|]; [reflexivity|].
      destruct (list_snapshots self w2) as [[l|e] w3]; reflexivity. }
  destruct (truthy filenames).
  - destruct (annotate self filenames 4 w1) as [[fn|e] w2]; [apply K|reflexivity].
  - unfold ret at 1. apply K.
Qed.

(** X14. [make_video] returns [img_snapshots/<filename>.mp4] whatever the
    encoder reports, after one call of it; when the encoder wrote nothing
    the returned path does not exist.  The path is not matched by
    [*.jpg]: [list_snapshots] never reports the video as a frame. *)
Theorem make_video_result (self : imager) (fps : Z) (w : world) :
  let r := make_video self fps w in
  fst r = Ok (video_path self)
  /\ log (snd r)
     = log w ++ [EvSystem (ffmpeg_command fps (img_snapshots self) (video_path self))]
  /\ (snd (run_command (ffmpeg_command fps (img_snapshots self) (video_path self))
              (files w)) = files w ->
      path_exists (video_path self) (snd r) = path_exists (video_path self) w)
  /\ jpg_in (img_snapshots self) (video_path self) = false.
Proof.
  intros r. subst r. rewrite make_video_eq. cbn [fst snd log].
  split; [reflexivity|]. split; [reflexivity|]. split.
  - intros E. unfold path_exists. cbn [files]. rewrite E. reflexivity.
  - unfold jpg_in, jpg_name, video_path, PosixPath.join.
    destruct (PyString.startswith "/" (filename self +:+ ".mp4"));
      [|destruct (String.eqb (img_snapshots self) ""
                  || PyString.endswith_char "/" (img_snapshots self))];
      rewrite <- ?PyStringFacts.app_assoc;
      match goal with
      | |- context [PosixPath.basename (?x +:+ ".mp4")] =>
          destruct (VideoFacts.basename_keeps_suffix x ".mp4" eq_refl) as [u ->]
      end;
      rewrite VideoFacts.not_jpg_mp4; cbn [andb]; apply andb_false_r.
Qed.

(** X15. With a video requested, a [run] that returns has replaced the
    frame list by the one video path, whatever the filters selected. *)
Theorem run_video_only (self : imager) (id t : pyval) (flag : string) (a : bool)
    (fps : option Z) (w : world) (l : list string) :
  fst (run self id t flag a true fps w) = Ok l -> l = [video_path self].
Proof.
  rewrite run_stages.
  destruct (get_criteria id t) as [criteria|e]; [|discriminate].
  destruct (get_frame self criteria w) as [[filenames|e] w1]; [|discriminate].
  destruct (if truthy filenames then annotate self filenames 4 w1
            else (Ok filenames, w1)) as [[filenames2|e] w2]; [|discriminate].
  cbn [fst]. intros H. injection H as <-. reflexivity.
Qed.

(** X16. [run] reads neither its connective nor its annotate flag: the
    module constant [ANNOTATE] is true, so frames are annotated also when
    the caller passes [annotate=False]. *)
Theorem run_ignores_flag_and_annotate (self : imager) (id t : pyval)
    (flag flag' : string) (a a' v : bool) (fps : option Z) (w : world) :
  run self id t flag a v fps w = run self id t flag' a' v fps w.
Proof. rewrite !run_stages. reflexivity. Qed.

(** X17. A query that selects no row gives the empty list, not the
    listing of the directory: with one list filter, no video and an
    accepted criteria without matching row, [run] returns [[]], calls no
    tool and touches no file, whatever the directory holds. *)
Theorem run_empty_selection (self : imager) (ids : list atom) (flag : string)
    (a : bool) (fps : option Z) (w : world) (selected : frame_record -> bool) :
  let criteria := "id in (" +:+ PyString.join "," (map str_atom ids) +:+ ")" in
  sqlite_where criteria = Ok selected ->
  List.filter selected (IMG_SNAPSHOTS (db w)) = [] ->
  run self (PyList ids) (PyAtom ANone) flag a false fps w
  = (Ok [], World (files w) (db w) (log w ++ [EvExecute (select_statement criteria)])).
Proof.
  intros criteria Q E. rewrite run_stages, get_criteria_id_only.
  fold criteria. cbv iota beta. rewrite get_frame_Some. cbv zeta. rewrite Q, E. reflexivity.
Qed.

(** X18. A scalar filter stops [run] before any I/O: when [id] or [t] is
    a value other than [None] and not a list, [run] raises the
    [NameError] of [make_criteria] and the world is as it was. *)
Theorem run_scalar_filter (self : imager) (id t : pyval) (flag : string)
    (a v : bool) (fps : option Z) (w : world) (x : atom) :
  x <> ANone ->
  id = PyAtom x \/ t = PyAtom x ->
  run self id t flag a v fps w = (Raise (NameError "Integer"), w).
Proof.
  intros N H. rewrite run_stages.
  assert (G : get_criteria id t = Raise (NameError "Integer")); [|rewrite G; reflexivity].
  destruct H as [->| ->].
  - destruct x; try contradiction; reflexivity.
  - destruct id as [[| | |]|l]; destruct x; try contradiction; reflexivity.
Qed.

(** X19. The criteria are [None] exactly when both filters are [None];
    every other pair of filters gives a text or an exception, so [run]
    lists the directory only for a call without filters. *)
Theorem get_criteria_None_only (id t : pyval) :
  get_criteria id t = Ok None <-> id = PyAtom ANone /\ t = PyAtom ANone.
Proof.
  rewrite get_criteria_None_iff. split; intros [H1 H2].
  - destruct id as [[| | |]|l]; try discriminate H1.
    destruct t as [[| | |]|l]; try discriminate H2. auto.
  - subst. auto.
Qed.

(** X20. With both filters given as lists, [run] hands SQLite the
    template of [get_criteria]; when SQLite refuses it, [run] raises the
    error of SQLite and neither saves nor annotates a frame. *)
Theorem run_both_filters_refused (self : imager) (ids ts : list atom)
    (flag : string) (a v : bool) (fps : option Z) (w : world) (e : exn) :
  sqlite_where "{id_criteria} {flag} {t_criteria}" = Raise e ->
  run self (PyList ids) (PyList ts) flag a v fps w
  = (Raise e,
     World (files w) (db w)
       (log w ++ [EvExecute (select_statement "{id_criteria} {flag} {t_criteria}")])).
Proof.
  intros Q. rewrite run_stages.
  change (get_criteria (PyList ids) (PyList ts))
    with (Ok (A := option string) (Some "{id_criteria} {flag} {t_criteria}"%string)).
  cbv iota beta. rewrite (get_frame_raises self _ w e Q). reflexivity.
Qed.

End Run.

Lemma save_frame_keeps_files_witness :
  files (snd (save_frame (sample_self no_tool) 3 2000 [Byte.x4a] empty_world))
    !! file_name_raw (sample_self no_tool) 3 2000
  = Some [Byte.x4a].
Proof.
  apply (save_frame_keeps_files (P := no_tool) (sample_self no_tool) 3 2000
           [Byte.x4a] empty_world); reflexivity.
Defined.

Lemma run_video_only_witness :
  ["/data/IMG_SNAPSHOTS/x.db.mp4"%string] = [video_path (sample_self no_tool)].
Proof.
  apply (run_video_only (P := no_tool) (C := sample_clock no_tool)
           (sample_self no_tool) (PyAtom ANone) (PyAtom ANone) "OR" false None
           undated_world).
  reflexivity.
Defined.

Lemma run_empty_selection_witness :
  run (P := no_tool) (C := sample_clock no_tool) (sample_self no_tool)
    (PyList [AInt 3]) (PyAtom ANone) "OR" false false None undated_world
  = (Ok [],
     World (files undated_world) (db undated_world)
       (log undated_world ++ [EvExecute (select_statement "id in (3)")])).
Proof.
  apply (run_empty_selection (P := no_tool) (C := sample_clock no_tool)
           (sample_self no_tool) [AInt 3] "OR" false None undated_world
           (fun _ => true)).
  - reflexivity.
  - reflexivity.
Defined.

Lemma run_scalar_filter_witness :
  run (P := no_tool) (C := sample_clock no_tool) (sample_self no_tool)
    (PyAtom (AInt 5)) (PyList [AInt 2000]) "OR" false false None raw_world
  = (Raise (NameError "Integer"), raw_world).
Proof.
  apply (run_scalar_filter (P := no_tool) (C := sample_clock no_tool)
           (sample_self no_tool) _ _ "OR" false false None raw_world (AInt 5)).
  - discriminate.
  - left. reflexivity.
Defined.

Lemma run_both_filters_refused_witness :
  run (P := strict_sqlite) (C := sample_clock strict_sqlite) (sample_self strict_sqlite)
    (PyList [AInt 3]) (PyList [AInt 2000]) "AND" false false None raw_world
  = (Raise (OperationalError (select_statement "{id_criteria} {flag} {t_criteria}")),
     World (files raw_world) (db raw_world)
       (log raw_world
        ++ [EvExecute (select_statement "{id_criteria} {flag} {t_criteria}")])).
Proof.
  apply (run_both_filters_refused (P := strict_sqlite) (C := sample_clock strict_sqlite)
           (sample_self strict_sqlite)).
  reflexivity.
Defined.
